(** * Startup-pitch site: server action, page composers and view counter

    A shallow embedding of
    - [src/lib/action.ts]                      ([createPitch]),
    - the pitch form's submit handler           ([handleFormSubmit]),
    - the view counter component                ([View]),
    - [src/app/(root)/startup/[id]/page.tsx]    ([Page]),
    - [src/app/(root)/page.tsx]                 ([Home]).

    JavaScript objects that are spread, built from entries or returned by
    the CMS write are finite maps from field names to values; documents read
    through typed queries are records.  Calls to the outside world (auth,
    CMS reads and writes, console, toast, router, [after]) are recorded in a
    trace, and their answers come from an explicit record of collaborators. *)

From stdpp Require Import gmap strings list fin_maps pretty.
From Stdlib Require Import ZArith Ascii.

Set Warnings "-register-all".
Local Open Scope Z_scope.

(** ** JavaScript values *)

Inductive JValue : Type :=
| JUndefined
| JNull
| JBool (b : bool)
| JNum (n : Z)
| JStr (s : string)
| JFile (name : string)
| JArr (items : list JValue)
| JObj (fields : gmap string JValue).

Abbreviation JObject := (gmap string JValue).

(** ToBoolean. *)
Definition truthy (v : JValue) : bool :=
  match v with
  | JUndefined | JNull => false
  | JBool b => b
  | JNum n => negb (n =? 0)
  | JStr s => negb (String.eqb s "")
  | JFile _ | JArr _ | JObj _ => true
  end.

(** [a || b] *)
Definition js_or (a b : JValue) : JValue := if truthy a then a else b.

(** [o.k] on an object that is known to be one; a missing key reads
    [undefined]. *)
Definition get (o : JObject) (k : string) : JValue := default JUndefined (o !! k).

(** [v.k] / [v?.k] on an arbitrary value whose primitive cases carry no
    own fields. *)
Definition field (k : string) (v : JValue) : JValue :=
  match v with
  | JObj o => get o k
  | _ => JUndefined
  end.

(** Object literals with a spread: [{ ...a, k: v }] is [js_assign a {k: v}]
    and [{ k: v, ...b }] is [js_assign {k: v} b]; the later part wins. *)
Definition js_assign (earlier later : JObject) : JObject := later ∪ earlier.

(** ToString, as used by template literals.  Numbers are the integers the
    model carries. *)
Fixpoint js_toString (v : JValue) : string :=
  match v with
  | JUndefined => "undefined"
  | JNull => "null"
  | JBool true => "true"
  | JBool false => "false"
  | JNum n => pretty n
  | JStr s => s
  | JFile _ => "[object File]"
  | JArr items =>
      String.concat ","
        (map (fun x => match x with
                       | JUndefined | JNull => ""
                       | _ => js_toString x
                       end) items)
  | JObj _ => "[object Object]"
  end.

(** [v == "literal"] for a literal that is not numeric: only a string equal
    to it, or an object whose ToString is it, compares equal. *)
Definition loose_eq_literal (v : JValue) (lit : string) : bool :=
  match v with
  | JStr s => String.eqb s lit
  | JArr _ | JObj _ | JFile _ => String.eqb (js_toString v) lit
  | _ => false
  end.

(** ** Form data *)

Inductive FormDataEntryValue : Type :=
| FString (s : string)
| FFile (name : string).

Definition FormData := list (string * FormDataEntryValue).

Definition entry_value (v : FormDataEntryValue) : JValue :=
  match v with
  | FString s => JStr s
  | FFile n => JFile n
  end.

(** [Array.from(form)]: the entries in document order. *)
Definition Array_from (form : FormData) : list (string * JValue) :=
  map (fun e => (fst e, entry_value (snd e))) form.

(** [Object.fromEntries]: a later entry overwrites an earlier one. *)
Definition Object_fromEntries (entries : list (string * JValue)) : JObject :=
  foldl (fun o e => <[fst e := snd e]> o) ∅ entries.

(** [form.get(name)]: the first entry of that name, [null] when none. *)
Definition FormData_get (form : FormData) (name : string) : JValue :=
  match List.find (fun e => String.eqb (fst e) name) form with
  | Some e => entry_value (snd e)
  | None => JNull
  end.

(** ** Exceptions *)

Inductive Exn : Type :=
| ZodError (fieldErrors : JObject)
| TypeError (message : string)
| Error (message : string)
| NEXT_NOT_FOUND
| Rejected (reason : JValue).

(** ** Documents read from the CMS *)

Module Author.
Record t : Type := {
  _id : string;
  name : option string;
  username : option string;
  image : option string;
}.
End Author.

Module Startup.
Record t : Type := {
  _id : string;
  _createdAt : string;
  title : option string;
  description : option string;
  category : option string;
  image : option string;
  pitch : option string;
  views : option Z;
  author : option Author.t;
}.
End Startup.

Module Playlist.
Record t : Type := { select : option (list Startup.t) }.
End Playlist.

Module ViewsDoc.
Record t : Type := { _id : string; views : option Z }.
End ViewsDoc.

(** The named read queries (their GROQ text lives in the query definitions
    module; only their names and result types matter here). *)
Inductive Query : Type :=
| STARTUPS_QUERY
| STARTUP_BY_ID_QUERY
| STARTUP_VIEWS_QUERY
| PLAYLIST_BY_SLUG_QUERY.

Definition QueryResult (q : Query) : Type :=
  match q with
  | STARTUPS_QUERY => list Startup.t
  | STARTUP_BY_ID_QUERY => option Startup.t
  | STARTUP_VIEWS_QUERY => option ViewsDoc.t
  | PLAYLIST_BY_SLUG_QUERY => option Playlist.t
  end.

(** ** Rendered trees *)

Inductive Node : Type :=
| NText (s : string)
| NNum (n : Z)
| NNothing
| NHtml (html : string)
| NElem (tag : string) (attrs : list (string * PropVal)) (children : list Node)
| NComp (component : string) (props : list (string * PropVal)) (children : list Node)
| NFragment (children : list Node)
with PropVal : Type :=
| PStr (s : option string)
| PNum (n : Z)
| PBool (b : bool)
| PPost (post : Startup.t)
| PNode (n : Node).

(** [{s}] for [s : string | null | undefined]. *)
Definition txt (s : option string) : Node :=
  match s with Some s => NText s | None => NNothing end.

(** [{n}] for [n : number | null]. *)
Definition num (n : option Z) : Node :=
  match n with Some n => NNum n | None => NNothing end.

(** The text a browser shows for a tree of host elements; components are
    opaque. *)
Fixpoint textContent (n : Node) : string :=
  match n with
  | NText s => s
  | NNum z => pretty z
  | NNothing | NHtml _ | NComp _ _ _ => ""
  | NElem _ _ cs | NFragment cs => String.concat "" (map textContent cs)
  end.

(** ** Observable interactions *)

Inductive Event : Type :=
| Auth
| CmsCreate (doc : JObject)
| CmsPatch (id : string) (set : JObject)
| CmsFetch (q : Query) (config : JObject) (params : JObject)
| LiveFetch (q : Query) (params : JObject)
| ConsoleLog (e : Exn)
| Toast (options : JObject)
| SetErrors (errors : JObject)
| RouterPush (url : string)
| After (callback_outcome : Exn + JValue) (callback_trace : list Event)
| ResponseFlushed (body : Exn + Node).

Definition is_write (ev : Event) : bool :=
  match ev with CmsCreate _ | CmsPatch _ _ => true | _ => false end.

Definition is_create (ev : Event) : bool :=
  match ev with CmsCreate _ => true | _ => false end.

Definition is_after (ev : Event) : bool :=
  match ev with After _ _ => true | _ => false end.

(** ** Computations: an outcome and the trace that led to it *)

Record M (A : Type) : Type := MkM { outcome : Exn + A; trace : list Event }.
Arguments MkM {A} _ _.
Arguments outcome {A} _.
Arguments trace {A} _.

Definition ret {A} (a : A) : M A := MkM (inr a) [].
Definition throw {A} (e : Exn) : M A := MkM (inl e) [].
Definition emit (ev : Event) : M unit := MkM (inr tt) [ev].

(** A call to a collaborator: recorded, then answered. *)
Definition call {A} (ev : Event) (answer : Exn + A) : M A := MkM answer [ev].

Definition bind {A B} (m : M A) (k : A -> M B) : M B :=
  match outcome m with
  | inl e => MkM (inl e) (trace m)
  | inr a => MkM (outcome (k a)) (trace m ++ trace (k a))
  end.

Definition try_catch {A} (body : M A) (handler : Exn -> M A) : M A :=
  match outcome body with
  | inl e => MkM (outcome (handler e)) (trace body ++ trace (handler e))
  | inr _ => body
  end.

#[global] Instance M_ret : MRet M := @ret.
#[global] Instance M_bind : MBind M := fun A B k m => bind m k.

(** [await Promise.all([a, b])]: both are started; the join fails with the
    rejection of the first rejected entry in array order. *)
Definition Promise_all2 {A B} (a : M A) (b : M B) : M (A * B) :=
  MkM match outcome a, outcome b with
      | inr x, inr y => inr (x, y)
      | inl e, _ => inl e
      | _, inl e => inl e
      end
      (trace a ++ trace b).

(** [after(callback)]: the callback is handed to the runtime, not run. *)
Definition after (callback : M JValue) : M unit :=
  emit (After (outcome callback) (trace callback)).

(** [notFound()] never returns. *)
Definition notFound {A} : M A := throw NEXT_NOT_FOUND.

(** A library call that computes a value or throws, with nothing to record. *)
Definition lift {A} (r : Exn + A) : M A := MkM r [].

(** ** Collaborators *)

Module Session.
Record t : Type := { id : string }.
End Session.

Record SlugifyOptions : Type := { lower : bool; strict : bool }.

Record Collaborators : Type := {
  (** [auth()]: the current session, or none. *)
  auth : option Session.t;
  (** [slugify(value, options)] of the slugify package. *)
  slugify : JValue -> SlugifyOptions -> Exn + string;
  (** [writeClient.create(doc)]. *)
  writeClient_create : JObject -> Exn + JObject;
  (** [writeClient.patch(id).set(fields).commit()]. *)
  writeClient_commit : string -> JObject -> Exn + JValue;
  (** [client.withConfig(config).fetch(query, params)]. *)
  client_fetch : forall q : Query, JObject -> JObject -> Exn + QueryResult q;
  (** [sanityFetch({ query, params })], its [data] field. *)
  sanityFetch : forall q : Query, JObject -> Exn + QueryResult q;
  (** [JSON.stringify(error)]. *)
  JSON_stringify : Exn -> JValue;
  (** [formSchema.parseAsync(values)]: throws on a rejected candidate. *)
  formSchema_parseAsync : JObject -> Exn + JValue;
  (** [md.render(source)] of markdown-it. *)
  md_render : string -> string;
  (** [formatDate(date)]. *)
  formatDate : string -> string;
}.

(** Modelled from the spec: [parseServerActionResponse] of the utilities
    module is not among the sources.  The Response Normalizer "wraps a
    server-action result into a uniform shape (spreads payload, status tag,
    error message)": the fields it is given are the fields of its result. *)
Definition parseServerActionResponse (response : JObject) : JObject := response.

(** ** The pitch creation action *)

(** The fields of the form other than the pitch body. *)
Definition form_fields (form : FormData) : JObject :=
  Object_fromEntries (filter (fun e => fst e ≠ "pitch") (Array_from form)).

Definition createPitch (env : Collaborators)
    (state : JValue) (form : FormData) (pitch : string) : M JObject :=
  session ← call Auth (inr (auth env));
  match session with
  | None =>
      mret (parseServerActionResponse
              {[ "error" := JStr "Not signed in"; "status" := JStr "ERROR" ]})
  | Some session =>
      let fields := form_fields form in
      let title := get fields "title" in
      let description := get fields "description" in
      let category := get fields "category" in
      let link := get fields "link" in
      slug ← lift (slugify env title {| lower := true; strict := true |});
      try_catch
        (let startup : JObject :=
           {[ "title" := title;
              "description" := description;
              "category" := category;
              "image" := link;
              "slug" := JObj {[ "_type" := JStr slug; "current" := JStr slug ]};
              "author" := JObj {[ "_type" := JStr "reference";
                                  "_ref" := JStr (Session.id session) ]};
              "pitch" := JStr pitch ]} in
         let doc := js_assign {[ "_type" := JStr "startup" ]} startup in
         result ← call (CmsCreate doc) (writeClient_create env doc);
         mret (parseServerActionResponse
                 (js_assign result
                    {[ "error" := JStr ""; "status" := JStr "SUCCESS" ]})))
        (fun error =>
           _ ← emit (ConsoleLog error);
           mret (parseServerActionResponse
                   {[ "error" := JSON_stringify env error;
                      "status" := JStr "ERROR" ]}))
  end.

(** ** The pitch form's submit handler (client side) *)

Definition handleFormSubmit (env : Collaborators) (pitch : string)
    (prevState : JObject) (formData : FormData) : M JObject :=
  try_catch
    (let formValues : JObject :=
       {[ "title" := FormData_get formData "title";
          "description" := FormData_get formData "description";
          "category" := FormData_get formData "category";
          "link" := FormData_get formData "link";
          "pitch" := JStr pitch ]} in
     _ ← lift (formSchema_parseAsync env formValues);
     result ← createPitch env (JObj prevState) formData pitch;
     _ ← (if loose_eq_literal (get result "status") "SUCCESS" then
            _ ← emit (Toast
                   {[ "title" := JStr "Success";
                      "description" :=
                        JStr "Your startup pitch has been created successfully" ]});
            emit (RouterPush ("/startup/" +:+ js_toString (get result "_id")))
          else mret tt);
     mret result)
    (fun error =>
       match error with
       | ZodError fieldErrors =>
           _ ← emit (SetErrors fieldErrors);
           _ ← emit (Toast
                  {[ "title" := JStr "Error";
                     "description" := JStr "Please check your inputs and try again";
                     "variant" := JStr "destructive" ]});
           mret (js_assign prevState
                   {[ "error" := JStr "Validation failed";
                      "status" := JStr "ERROR" ]})
       | _ =>
           _ ← emit (Toast
                  {[ "title" := JStr "Error";
                     "description" := JStr "An unexpected error has occurred";
                     "variant" := JStr "destructive" ]});
           mret (js_assign prevState
                   {[ "error" := JStr "An unexpected error has occurred";
                      "status" := JStr "ERROR" ]})
       end).

(** ** Numbers that may be [null]  ([number | null] in the query types) *)

(** ToNumber: [null] counts as 0. *)
Definition to_number (n : option Z) : Z := default 0 n.

(** [n + 1] *)
Definition plus_one (n : option Z) : Z := to_number n + 1.

(** [n < 1] *)
Definition less_than_one (n : option Z) : bool := to_number n <? 1.

(** [n === 1] *)
Definition is_one (n : option Z) : bool :=
  match n with Some k => k =? 1 | None => false end.

(** [s || ""] for [s : string | null | undefined]. *)
Definition or_empty (s : option string) : string :=
  match s with
  | Some s => if String.eqb s "" then "" else s
  | None => ""
  end.

Definition className (c : string) : string * PropVal := ("className", PStr (Some c)).

(** ** The view counter component *)

(** The count and its unit, as the [font-black] span shows them. *)
Definition view_label (totalViews : option Z) : Node :=
  if less_than_one totalViews then
    NElem "span" [] [NText "No views"]
  else
    NElem "span" []
      [num totalViews; NText " ";
       NText (if is_one totalViews then "view" else "views")].

Definition View (env : Collaborators) (id : string) : M Node :=
  let config : JObject := {[ "useCdn" := JBool false ]} in
  let params : JObject := {[ "id" := JStr id ]} in
  doc ← call (CmsFetch STARTUP_VIEWS_QUERY config params)
             (client_fetch env STARTUP_VIEWS_QUERY config params);
  totalViews ← match doc : option ViewsDoc.t with
               | Some d => mret (ViewsDoc.views d)
               | None => throw (TypeError "Cannot destructure property 'views' of null")
               end;
  _ ← after
        (let fields : JObject := {[ "views" := JNum (plus_one totalViews) ]} in
         call (CmsPatch id fields) (writeClient_commit env id fields));
  mret (NElem "div" [className "view-container"]
          [NElem "div" [className "absolute -top-2 -right-2"] [NComp "Ping" [] []];
           NElem "p" [className "view-text"]
             [NElem "span" [className "font-black"] [view_label totalViews]]]).

(** ** The detail page *)

Definition author_of (post : Startup.t) : option Author.t := Startup.author post.

(** [`/user/${post?.author?._id}`] *)
Definition user_href (post : Startup.t) : string :=
  "/user/" +:+ match author_of post with
               | Some a => Author._id a
               | None => "undefined"
               end.

Definition pitch_details (parsedContent : string) : Node :=
  if negb (String.eqb parsedContent "") then
    NElem "article" [className "prose max-w-4xl font-work-sans break-all"]
      [NHtml parsedContent]
  else
    NElem "p" [className "no-result"] [NText "No details provided"].

Definition editor_picks (editorPosts : option (list Startup.t)) : Node :=
  match editorPosts with
  | Some ((_ :: _) as posts) =>
      NElem "div" [className "max-w-4xl mx-auto"]
        [NElem "p" [className "text-30-semibold"] [NText "Editor Picks"];
         NElem "ul" [className "mt-7 card_grid-sm"]
           (imap (fun i post =>
                    NComp "StartupCard"
                      [("key", PNum (Z.of_nat i)); ("post", PPost post)] [])
                 posts)]
  | _ => NNothing
  end.

Definition Page (env : Collaborators) (id : string) : M Node :=
  let by_id : JObject := {[ "id" := JStr id ]} in
  let by_slug : JObject := {[ "slug" := JStr "editor-picks" ]} in
  reads ← Promise_all2
            (call (CmsFetch STARTUP_BY_ID_QUERY ∅ by_id)
                  (client_fetch env STARTUP_BY_ID_QUERY ∅ by_id))
            (call (CmsFetch PLAYLIST_BY_SLUG_QUERY ∅ by_slug)
                  (client_fetch env PLAYLIST_BY_SLUG_QUERY ∅ by_slug));
  let post : option Startup.t := fst reads in
  editorPosts ← match snd reads : option Playlist.t with
                | Some playlist => mret (Playlist.select playlist)
                | None => throw (TypeError "Cannot destructure property 'select' of null")
                end;
  match post with
  | None => notFound
  | Some post =>
      let parsedContent := md_render env (or_empty (Startup.pitch post)) in
      mret (NFragment
        [NElem "section" [className "pink_container !min-h-[230px]"]
           [NElem "p" [className "tag"]
              [NText (formatDate env (Startup._createdAt post))];
            NElem "h1" [className "heading"] [txt (Startup.title post)];
            NElem "p" [className "sub-heading !max-w-5xl"]
              [txt (Startup.description post)]];
         NElem "section" [className "section_container"]
           [NElem "img"
              [("src", PStr (Startup.image post));
               ("alt", PStr (Some "thumbnail"));
               className "w-full h-auto rounded-xl"] [];
            NElem "div" [className "space-y-5 mt-10 max-w-4xl mx-auto"]
              [NElem "div" [className "flex-between gap-5"]
                 [NComp "Link" [("href", PStr (Some (user_href post)))]
                    [NComp "Image"
                       [("src", PStr (author_of post ≫= Author.image));
                        ("alt", PStr (Some "avatar"));
                        ("width", PNum 64);
                        ("height", PNum 64);
                        className "rounded-full drop-shadow-lg"] [];
                     NElem "div" []
                       [NElem "p" [className "text-20-medium"]
                          [txt (author_of post ≫= Author.name)];
                        NElem "p" [className "text-16-medium"]
                          [NText "@"; txt (author_of post ≫= Author.username)]]];
                  NElem "p" [className "category-tag"]
                    [txt (Startup.category post)]];
               NElem "h3" [className "text-30-bold"] [NText "Pitch Details"];
               pitch_details parsedContent];
            NElem "hr" [className "divider"] [];
            editor_picks editorPosts];
         NComp "Suspense"
           [("fallback", PNode (NComp "Skeleton" [className "view_skeleton"] []))]
           [NComp "View" [("id", PStr (Some id))] []]])
  end.

(** ** The list page *)

Definition opt_str (s : option string) : JValue :=
  match s with Some s => JStr s | None => JUndefined end.

(** The parameters handed to the list query: [{ search: query || null }]. *)
Definition list_params (query : option string) : JObject :=
  {[ "search" := js_or (opt_str query) JNull ]}.

Definition startup_cards (posts : list Startup.t) : list Node :=
  if (0 <? Z.of_nat (length posts)) then
    map (fun post =>
           NComp "StartupCard"
             [("key", PStr (Some (Startup._id post))); ("post", PPost post)] [])
        posts
  else
    [NElem "p" [className "no-results"] [NText "No Results Found"]].

Definition Home (env : Collaborators) (query : option string) : M Node :=
  let params := list_params query in
  posts ← call (LiveFetch STARTUPS_QUERY params)
               (sanityFetch env STARTUPS_QUERY params);
  mret (NFragment
    [NElem "section" [className "pink_container"]
       [NElem "h1" [className "heading"]
          [NText "Pitch Your Startup "; NElem "br" [] [];
           NText " Connect with Entrepreneurs"];
        NElem "p" [className "sub-heading !max-w-3xl"]
          [NText "Submit Ideas, Vote on Pitches, and get noticed in Virtual Competitions."];
        NComp "SearchForm" [("query", PStr query)] []];
     NElem "section" [className "section_container"]
       [NElem "p" [className "text-30-semibold"]
          [NText (if truthy (opt_str query)
                  then "Search Results for " +:+ js_toString (opt_str query)
                  else "All Startups")];
        NElem "ul" [className "card_grid mt-7"]
          (startup_cards (posts : list Startup.t))];
     NComp "SanityLive" [] []]).

(** ** One request, as the framework runs it

    The contract of [after] (imported from the framework as
    [unstable_after]): the component is rendered, the response is produced
    and flushed, and only then are the callbacks handed to [after] run, in
    the order they were registered; what they return or throw goes
    nowhere. *)

Definition rendering (t : list Event) : list Event :=
  filter (fun ev => is_after ev = false) t.

Definition deferred (t : list Event) : list Event :=
  flat_map (fun ev => match ev with After _ cb => cb | _ => [] end) t.

Definition respond (component : M Node) : list Event :=
  rendering (trace component)
    ++ ResponseFlushed (outcome component) :: deferred (trace component).

(** The body sent to the requester. *)
Definition response_body (component : M Node) : Exn + Node := outcome component.

(** ** Stand-ins for the collaborators, to run the code on concrete inputs *)

(** The slugify package refuses anything but a string
    ("slugify: string argument expected"); the transform of a string is left
    to [transform]. *)
Definition slugify_guard (transform : string -> SlugifyOptions -> string)
    (v : JValue) (o : SlugifyOptions) : Exn + string :=
  match v with
  | JStr s => inr (transform s o)
  | _ => inl (Error "slugify: string argument expected")
  end.

(** A store that accepts every document and returns it with an id. *)
Definition accept_with_id (id : string) (doc : JObject) : Exn + JObject :=
  inr (<["_id" := JStr id]> doc).

(** A store that rejects every write. *)
Definition reject_all {A B} (reason : string) (_ : A) : Exn + B :=
  inl (Rejected (JStr reason)).

Definition nonempty_string (v : JValue) : bool :=
  match v with JStr s => negb (String.eqb s "") | _ => false end.

(** Modelled from the spec: the form schema of the validation module is not
    among the sources.  "Given a candidate object with fields {title,
    description, category, link, pitch}, all are required non-empty strings;
    [link] must be a syntactically valid URL; [pitch] must meet a minimum
    length."  The URL test and the minimum are left as parameters. *)
Definition formSchema (is_url : string -> bool) (min_pitch : nat)
    (values : JObject) : Exn + JValue :=
  let bad (k : string) (ok : bool) : list (string * JValue) :=
    if ok then [] else [(k, JArr [JStr "Invalid"])] in
  let errors :=
    bad "title" (nonempty_string (get values "title"))
    ++ bad "description" (nonempty_string (get values "description"))
    ++ bad "category" (nonempty_string (get values "category"))
    ++ bad "link" (match get values "link" with
                   | JStr s => negb (String.eqb s "") && is_url s
                   | _ => false
                   end)
    ++ bad "pitch" (match get values "pitch" with
                    | JStr s => negb (String.eqb s "")
                                && (min_pitch <=? String.length s)%nat
                    | _ => false
                    end) in
  match errors with
  | [] => inr (JObj values)
  | _ => inl (ZodError (list_to_map errors))
  end.

Definition demo_env : Collaborators := {|
  auth := Some {| Session.id := "user-1" |};
  slugify := slugify_guard (fun s _ => s);
  writeClient_create := accept_with_id "doc-1";
  writeClient_commit := fun _ fields => inr (JObj fields);
  client_fetch := fun q _ _ =>
    match q return Exn + QueryResult q with
    | STARTUPS_QUERY => inr []
    | STARTUP_BY_ID_QUERY => inr None
    | STARTUP_VIEWS_QUERY => inr (Some {| ViewsDoc._id := "doc-1"; ViewsDoc.views := Some 1 |})
    | PLAYLIST_BY_SLUG_QUERY => inr (Some {| Playlist.select := None |})
    end;
  sanityFetch := fun q _ =>
    match q return Exn + QueryResult q with
    | STARTUPS_QUERY => inr []
    | STARTUP_BY_ID_QUERY => inr None
    | STARTUP_VIEWS_QUERY => inr None
    | PLAYLIST_BY_SLUG_QUERY => inr None
    end;
  JSON_stringify := fun _ => JStr "{}";
  formSchema_parseAsync := formSchema (fun _ => true) 10;
  md_render := fun s => s;
  formatDate := fun s => s;
|}.

(** ** Names for what the action builds and answers *)

Definition slug_options : SlugifyOptions := {| lower := true; strict := true |}.

(** The title as the action reads it from the form. *)
Definition submitted_title (form : FormData) : JValue := get (form_fields form) "title".

(** The document [createPitch] hands to [writeClient.create]. *)
Definition created_document (form : FormData) (slug : string)
    (session : Session.t) (pitch : string) : JObject :=
  let fields := form_fields form in
  js_assign {[ "_type" := JStr "startup" ]}
    {[ "title" := get fields "title";
       "description" := get fields "description";
       "category" := get fields "category";
       "image" := get fields "link";
       "slug" := JObj {[ "_type" := JStr slug; "current" := JStr slug ]};
       "author" := JObj {[ "_type" := JStr "reference";
                           "_ref" := JStr (Session.id session) ]};
       "pitch" := JStr pitch ]}.

Definition not_signed_in : JObject :=
  {[ "error" := JStr "Not signed in"; "status" := JStr "ERROR" ]}.

Definition success_of (created : JObject) : JObject :=
  js_assign created {[ "error" := JStr ""; "status" := JStr "SUCCESS" ]}.

Definition error_of (env : Collaborators) (e : Exn) : JObject :=
  {[ "error" := JSON_stringify env e; "status" := JStr "ERROR" ]}.

(** Navigation in rendered trees: the [i]-th child, and the node at a path
    of child indices. *)
Definition children (n : Node) : list Node :=
  match n with
  | NElem _ _ cs | NComp _ _ cs | NFragment cs => cs
  | _ => []
  end.

Definition at_path (path : list nat) (n : Node) : option Node :=
  foldl (fun cur i => cur ≫= fun m => children m !! i) (Some n) path.

(** The candidate object the submit handler validates. *)
Definition form_values (formData : FormData) (pitch : string) : JObject :=
  {[ "title" := FormData_get formData "title";
     "description" := FormData_get formData "description";
     "category" := FormData_get formData "category";
     "link" := FormData_get formData "link";
     "pitch" := JStr pitch ]}.

(** Concrete submissions. *)
Definition with_auth (session : option Session.t) (env : Collaborators) : Collaborators :=
  {| auth := session;
     slugify := slugify env;
     writeClient_create := writeClient_create env;
     writeClient_commit := writeClient_commit env;
     client_fetch := client_fetch env;
     sanityFetch := sanityFetch env;
     JSON_stringify := JSON_stringify env;
     formSchema_parseAsync := formSchema_parseAsync env;
     md_render := md_render env;
     formatDate := formatDate env |}.

Definition with_create (create : JObject -> Exn + JObject) (env : Collaborators)
    : Collaborators :=
  {| auth := auth env;
     slugify := slugify env;
     writeClient_create := create;
     writeClient_commit := writeClient_commit env;
     client_fetch := client_fetch env;
     sanityFetch := sanityFetch env;
     JSON_stringify := JSON_stringify env;
     formSchema_parseAsync := formSchema_parseAsync env;
     md_render := md_render env;
     formatDate := formatDate env |}.

Definition demo_session : Session.t := {| Session.id := "user-1" |}.

Definition demo_pitch : string := "We sell shovels to gold diggers.".

Definition demo_form : FormData :=
  [("title", FString "acme"); ("description", FString "Shovels, mostly");
   ("category", FString "tools"); ("link", FString "https://example.com/a.png")].

Definition form_without_title : FormData :=
  [("description", FString "Shovels, mostly");
   ("category", FString "tools"); ("link", FString "https://example.com/a.png")].

Definition form_with_empty_title : FormData :=
  [("title", FString ""); ("description", FString "Shovels, mostly");
   ("category", FString "tools"); ("link", FString "https://example.com/a.png")].

Definition with_commit (commit : string -> JObject -> Exn + JValue)
    (env : Collaborators) : Collaborators :=
  {| auth := auth env;
     slugify := slugify env;
     writeClient_create := writeClient_create env;
     writeClient_commit := commit;
     client_fetch := client_fetch env;
     sanityFetch := sanityFetch env;
     JSON_stringify := JSON_stringify env;
     formSchema_parseAsync := formSchema_parseAsync env;
     md_render := md_render env;
     formatDate := formatDate env |}.

(** The read the view counter issues, and the write it schedules. *)
Definition views_config : JObject := {[ "useCdn" := JBool false ]}.
Definition views_params (id : string) : JObject := {[ "id" := JStr id ]}.
Definition views_update (observed : option Z) : JObject :=
  {[ "views" := JNum (plus_one observed) ]}.

(** What the view counter renders for an observed count. *)
Definition view_tree (totalViews : option Z) : Node :=
  NElem "div" [className "view-container"]
    [NElem "div" [className "absolute -top-2 -right-2"] [NComp "Ping" [] []];
     NElem "p" [className "view-text"]
       [NElem "span" [className "font-black"] [view_label totalViews]]].

Definition with_fetch
    (fetch : forall q : Query, JObject -> JObject -> Exn + QueryResult q)
    (env : Collaborators) : Collaborators :=
  {| auth := auth env;
     slugify := slugify env;
     writeClient_create := writeClient_create env;
     writeClient_commit := writeClient_commit env;
     client_fetch := fetch;
     sanityFetch := sanityFetch env;
     JSON_stringify := JSON_stringify env;
     formSchema_parseAsync := formSchema_parseAsync env;
     md_render := md_render env;
     formatDate := formatDate env |}.

Definition with_md (render : string -> string) (env : Collaborators) : Collaborators :=
  {| auth := auth env;
     slugify := slugify env;
     writeClient_create := writeClient_create env;
     writeClient_commit := writeClient_commit env;
     client_fetch := client_fetch env;
     sanityFetch := sanityFetch env;
     JSON_stringify := JSON_stringify env;
     formSchema_parseAsync := formSchema_parseAsync env;
     md_render := render;
     formatDate := formatDate env |}.

(** The two reads of the detail page. *)
Definition by_id_params (id : string) : JObject := {[ "id" := JStr id ]}.
Definition editor_picks_params : JObject := {[ "slug" := JStr "editor-picks" ]}.

Definition page_reads (id : string) : list Event :=
  [CmsFetch STARTUP_BY_ID_QUERY ∅ (by_id_params id);
   CmsFetch PLAYLIST_BY_SLUG_QUERY ∅ editor_picks_params].

(** A store whose entity read and playlist read answer as given. *)
Definition answering (startup : Exn + option Startup.t)
    (playlist : Exn + option Playlist.t)
    (q : Query) (_ _ : JObject) : Exn + QueryResult q :=
  match q return Exn + QueryResult q with
  | STARTUPS_QUERY => inr []
  | STARTUP_BY_ID_QUERY => startup
  | STARTUP_VIEWS_QUERY => inr None
  | PLAYLIST_BY_SLUG_QUERY => playlist
  end.

(** A converter that, like markdown-it on such sources, produces no block
    (the empty string) for a source made of blank characters only; any other
    source becomes one paragraph. *)
Definition is_blank (c : Ascii.ascii) : bool :=
  Ascii.eqb c " "%char || Ascii.eqb c "009"%char || Ascii.eqb c "010"%char.

Definition md_paragraph (source : string) : string :=
  if forallb is_blank (String.list_ascii_of_string source) then ""
  else "<p>" +:+ source +:+ "</p>".

Definition demo_post (pitch : option string) : Startup.t :=
  {| Startup._id := "doc-1";
     Startup._createdAt := "2024-11-20T10:00:00Z";
     Startup.title := Some "acme";
     Startup.description := Some "Shovels, mostly";
     Startup.category := Some "tools";
     Startup.image := Some "https://example.com/a.png";
     Startup.pitch := pitch;
     Startup.views := Some 1;
     Startup.author := None |}.

Definition no_picks : Playlist.t := {| Playlist.select := None |}.

(** The two forms of the "Pitch Details" block. *)
Definition no_details : Node :=
  NElem "p" [className "no-result"] [NText "No details provided"].

Definition details_article (html : string) : Node :=
  NElem "article" [className "prose max-w-4xl font-work-sans break-all"] [NHtml html].

(** The card of a post in the list page's grid, and the empty-list message. *)
Definition list_card (post : Startup.t) : Node :=
  NComp "StartupCard"
    [("key", PStr (Some (Startup._id post))); ("post", PPost post)] [].

Definition no_results : Node :=
  NElem "p" [className "no-results"] [NText "No Results Found"].

(** Concrete stores for the detail page. *)
Definition store_without_playlist : Collaborators :=
  with_fetch (answering (inr None) (inr None)) demo_env.

Definition store_with_post (pitch : option string) : Collaborators :=
  with_fetch (answering (inr (Some (demo_post pitch))) (inr (Some no_picks))) demo_env.

(** ** The search form and the startup card *)

(** What the reset button component renders; its click handler is the
    module's [reset] function. *)
Definition SearchFormReset : Node :=
  NElem "button" [("type", PStr (Some "reset")); ("onClick", PStr (Some "reset"))]
    [NComp "Link" [("href", PStr (Some "/")); className "search-btn text-white"]
       [NComp "X" [className "size-5"] []]].

(** [{query && <SearchFormReset />}] *)
Definition reset_slot (query : option string) : Node :=
  match query with
  | Some s => if truthy (JStr s) then NComp "SearchFormReset" [] [] else NText s
  | None => NNothing
  end.

Definition SearchForm (query : option string) : Node :=
  NComp "Form"
    [("action", PStr (Some "/")); ("scroll", PBool false); className "search-form"]
    [NElem "input"
       [("name", PStr (Some "query"));
        ("defaultValue", PStr (Some ""));
        ("placeholder", PStr (Some "Search Startup"));
        className "search-input"] [];
     NElem "div" [className "flex gap-2"]
       [reset_slot query;
        NElem "button" [("type", PStr (Some "submit")); className "search-btn text-white"]
          [NComp "Search" [className "size-5"] []]]].

(** [`/startup/${_id}`] *)
Definition startup_href (id : string) : string := "/startup/" +:+ id.

(** [`/?query=${category?.toLowerCase()}`]; [toLowerCase] is the string
    method of the language. *)
Definition category_href (toLowerCase : string -> string) (post : Startup.t) : string :=
  "/?query=" +:+ match Startup.category post with
                 | Some c => toLowerCase c
                 | None => "undefined"
                 end.

Definition StartupCard (env : Collaborators) (toLowerCase : string -> string)
    (post : Startup.t) : Node :=
  let author := Startup.author post in
  NElem "li" [className "startup-card"]
    [NElem "div" [className "flex-between"]
       [NElem "p" [className "startup_card_date"]
          [NText (formatDate env (Startup._createdAt post))]];
     NElem "div" [className "flex gap-1.5"]
       [NComp "EyeIcon" [className "size-6 text-primary"] [];
        NElem "span" [className "text-16-medium"] [num (Startup.views post)]];
     NElem "div" [className "flex-between mt-5 gap-5"]
       [NElem "div" [className "flex-1"]
          [NComp "Link" [("href", PStr (Some (user_href post)))]
             [NElem "p" [className "text-16-medium line-clamp-1"]
                [txt (author ≫= Author.username)]];
           NComp "Link" [("href", PStr (Some (startup_href (Startup._id post))))]
             [NElem "h3" [className "text-26-semibold"] [txt (Startup.title post)]]];
        NElem "div"
          [className "border-gray-100 border-[2px] rounded-full hover:border-gray-300 hover:animate-bounce"]
          [NComp "Link" [("href", PStr (Some (user_href post)))]
             [NComp "Image"
                [("src", PStr (author ≫= Author.image));
                 ("alt", PStr (author ≫= Author.username));
                 ("width", PNum 48);
                 ("height", PNum 48);
                 className "rounded-full "] []]]];
     NComp "Link" [("href", PStr (Some (startup_href (Startup._id post))))]
       [NElem "p" [className "startup-card_desc"] [txt (Startup.description post)];
        NElem "img"
          [("src", PStr (Startup.image post));
           ("alt", PStr (Some "placeholder"));
           className "startup-card_img"] []];
     NElem "div" [className "flex-between gap-3 mt-5"]
       [NComp "Link" [("href", PStr (Some (category_href toLowerCase post)))]
          [NElem "p" [className "text-16-medium"] [txt (Startup.category post)]];
        NComp "Button" [className "startup-card_btn"; ("asChild", PBool true)]
          [NComp "Link" [("href", PStr (Some (startup_href (Startup._id post))))]
             [NText "Details"]]]].

(** The targets of the [Link]s of a tree, in document order. *)
Definition href_of (props : list (string * PropVal)) : list string :=
  match List.find (fun p => String.eqb (fst p) "href") props with
  | Some (_, PStr (Some h)) => [h]
  | _ => []
  end.

Fixpoint links (n : Node) : list string :=
  match n with
  | NComp c props cs =>
      (if String.eqb c "Link" then href_of props else []) ++ flat_map links cs
  | NElem _ _ cs | NFragment cs => flat_map links cs
  | _ => []
  end.

(** ** Names for what the submit handler shows and answers *)

Definition success_toast : JObject :=
  {[ "title" := JStr "Success";
     "description" := JStr "Your startup pitch has been created successfully" ]}.

Definition validation_toast : JObject :=
  {[ "title" := JStr "Error";
     "description" := JStr "Please check your inputs and try again";
     "variant" := JStr "destructive" ]}.

Definition unexpected_toast : JObject :=
  {[ "title" := JStr "Error";
     "description" := JStr "An unexpected error has occurred";
     "variant" := JStr "destructive" ]}.

Definition validation_failed (prevState : JObject) : JObject :=
  js_assign prevState
    {[ "error" := JStr "Validation failed"; "status" := JStr "ERROR" ]}.

Definition unexpected_error (prevState : JObject) : JObject :=
  js_assign prevState
    {[ "error" := JStr "An unexpected error has occurred"; "status" := JStr "ERROR" ]}.

(** The writes among the interactions of a run. *)
Definition writes (t : list Event) : list Event :=
  filter (fun ev => is_write ev = true) t.

(** The document field a form field ends up in. *)
Definition document_field (key : string) : string :=
  if String.eqb key "link" then "image" else key.

(** What the handler's [catch] block does with an exception thrown after
    the interactions [t]. *)
Definition caught (prevState : JObject) (t : list Event) (e : Exn) : M JObject :=
  match e with
  | ZodError fieldErrors =>
      MkM (inr (validation_failed prevState))
          (t ++ [SetErrors fieldErrors; Toast validation_toast])
  | _ => MkM (inr (unexpected_error prevState)) (t ++ [Toast unexpected_toast])
  end.

Definition with_slugify (f : JValue -> SlugifyOptions -> Exn + string)
    (env : Collaborators) : Collaborators :=
  {| auth := auth env;
     slugify := f;
     writeClient_create := writeClient_create env;
     writeClient_commit := writeClient_commit env;
     client_fetch := client_fetch env;
     sanityFetch := sanityFetch env;
     JSON_stringify := JSON_stringify env;
     formSchema_parseAsync := formSchema_parseAsync env;
     md_render := md_render env;
     formatDate := formatDate env |}.

(** A slug library that refuses every input. *)
Definition refusing_slugify (_ : JValue) (_ : SlugifyOptions) : Exn + string :=
  inl (Error "slugify: string argument expected").

(** The card of an editor pick, keyed by its position. *)
Definition pick_card (i : nat) (post : Startup.t) : Node :=
  NComp "StartupCard" [("key", PNum (Z.of_nat i)); ("post", PPost post)] [].

(** The slot in which the detail page mounts the counter. *)
Definition counter_slot (id : string) : Node :=
  NComp "Suspense"
    [("fallback", PNode (NComp "Skeleton" [className "view_skeleton"] []))]
    [NComp "View" [("id", PStr (Some id))] []].

(** A store that holds the demo post, its playlist and its count. *)
Definition store_with_views (views : option Z) : Collaborators :=
  with_fetch
    (fun q =>
       match q return JObject -> JObject -> Exn + QueryResult q with
       | STARTUP_VIEWS_QUERY => fun _ _ =>
           inr (Some {| ViewsDoc._id := "doc-1"; ViewsDoc.views := views |})
       | q' => client_fetch (store_with_post None) q'
       end)
    demo_env.

(** The heading over the grid of the list page. *)
Definition list_heading (text : string) : Node :=
  NElem "p" [className "text-30-semibold"] [NText text].

(** A store whose playlist holds the given picks. *)
Definition store_with_picks (picks : list Startup.t) : Collaborators :=
  with_fetch (answering (inr (Some (demo_post None)))
                        (inr (Some {| Playlist.select := Some picks |}))) demo_env.

(** * Properties *)

(** ** createPitch, case by case *)

(** Unfolds the plumbing of [M] so that the collaborators' answers show. *)
Ltac run_M := unfold mbind, M_bind, bind, call, lift, after, emit, try_catch.

Section createPitch_cases.
Context (env : Collaborators) (state : JValue) (form : FormData) (pitch : string).

Lemma createPitch_signed_out :
  auth env = None ->
  createPitch env state form pitch = MkM (inr not_signed_in) [Auth].
Proof.
  intros Hauth. unfold createPitch; run_M; cbn.
  rewrite Hauth. reflexivity.
Qed.

Context (session : Session.t) (Hauth : auth env = Some session).

Lemma createPitch_slug_throws e :
  slugify env (submitted_title form) slug_options = inl e ->
  createPitch env state form pitch = MkM (inl e) [Auth].
Proof.
  intros Hslug. unfold createPitch; run_M; cbn.
  rewrite Hauth; cbn. unfold submitted_title, slug_options in Hslug.
  rewrite Hslug. reflexivity.
Qed.

Context (slug : string)
        (Hslug : slugify env (submitted_title form) slug_options = inr slug).

Lemma createPitch_written created :
  writeClient_create env (created_document form slug session pitch) = inr created ->
  createPitch env state form pitch
  = MkM (inr (success_of created))
        [Auth; CmsCreate (created_document form slug session pitch)].
Proof.
  intros Hcreate. unfold createPitch; run_M; cbn.
  rewrite Hauth; cbn. unfold submitted_title, slug_options in Hslug.
  rewrite Hslug; cbn.
  fold (created_document form slug session pitch). rewrite Hcreate. reflexivity.
Qed.

Lemma createPitch_write_throws e :
  writeClient_create env (created_document form slug session pitch) = inl e ->
  createPitch env state form pitch
  = MkM (inr (error_of env e))
        [Auth; CmsCreate (created_document form slug session pitch); ConsoleLog e].
Proof.
  intros Hcreate. unfold createPitch; run_M; cbn.
  rewrite Hauth; cbn. unfold submitted_title, slug_options in Hslug.
  rewrite Hslug; cbn.
  fold (created_document form slug session pitch). rewrite Hcreate. reflexivity.
Qed.
End createPitch_cases.

(** ** What the answer keeps of the created document *)

Lemma success_of_keeps (created : JObject) (k : string) :
  k ≠ "error" -> k ≠ "status" ->
  get (success_of created) k = get created k.
Proof.
  intros He Hs. unfold get, success_of, js_assign.
  rewrite lookup_union_r; [reflexivity|].
  rewrite lookup_insert_ne by congruence.
  rewrite lookup_singleton_ne by congruence. reflexivity.
Qed.

Lemma success_of_status (created : JObject) :
  get (success_of created) "status" = JStr "SUCCESS"
  /\ get (success_of created) "error" = JStr "".
Proof.
  unfold get, success_of, js_assign. split.
  - erewrite lookup_union_Some_l; [reflexivity|]. reflexivity.
  - erewrite lookup_union_Some_l; [reflexivity|]. reflexivity.
Qed.

Lemma created_document_slug form slug session pitch :
  created_document form slug session pitch !! "slug"
  = Some (JObj {[ "_type" := JStr slug; "current" := JStr slug ]}).
Proof. reflexivity. Qed.

Lemma created_document_author form slug session pitch :
  created_document form slug session pitch !! "author"
  = Some (JObj {[ "_type" := JStr "reference";
                  "_ref" := JStr (Session.id session) ]}).
Proof. reflexivity. Qed.

(** Every write the action issues is the creation of [created_document],
    for the slug that [slugify] returned for the submitted title. *)
Lemma createPitch_creates_only env state form pitch doc :
  CmsCreate doc ∈ trace (createPitch env state form pitch) ->
  exists session slug,
    auth env = Some session
    /\ slugify env (submitted_title form) slug_options = inr slug
    /\ doc = created_document form slug session pitch.
Proof.
  intros Hin.
  destruct (auth env) as [session|] eqn:Hauth.
  2:{ rewrite createPitch_signed_out in Hin by assumption. cbn in Hin.
      apply list_elem_of_singleton in Hin. discriminate. }
  destruct (slugify env (submitted_title form) slug_options) as [e|slug] eqn:Hslug.
  { rewrite (createPitch_slug_throws env state form pitch session Hauth e Hslug) in Hin.
    cbn in Hin. apply list_elem_of_singleton in Hin. discriminate. }
  exists session, slug. split; [reflexivity|]. split; [reflexivity|].
  destruct (writeClient_create env (created_document form slug session pitch))
    as [e|created] eqn:Hcreate.
  - rewrite (createPitch_write_throws env state form pitch session Hauth slug Hslug e Hcreate)
      in Hin. cbn in Hin.
    repeat (apply elem_of_cons in Hin as [Hin|Hin]; [try discriminate|]).
    + congruence.
    + inversion Hin.
  - rewrite (createPitch_written env state form pitch session Hauth slug Hslug created Hcreate)
      in Hin. cbn in Hin.
    repeat (apply elem_of_cons in Hin as [Hin|Hin]; [try discriminate|]).
    + congruence.
    + inversion Hin.
Qed.

(** C1.  With an active session, when the write of the pitch document is
    accepted and the store answers with the created document (a document
    that carries the submitted fields), [createPitch] returns a result whose
    [slug.current] is [slugify(title, {lower: true, strict: true})] and
    whose [author._ref] is the session's id. *)
Theorem createPitch_slug_and_author env state form pitch session doc created :
  auth env = Some session ->
  CmsCreate doc ∈ trace (createPitch env state form pitch) ->
  writeClient_create env doc = inr created ->
  doc ⊆ created ->
  exists slug result,
    slugify env (submitted_title form) slug_options = inr slug
    /\ outcome (createPitch env state form pitch) = inr result
    /\ field "current" (get result "slug") = JStr slug
    /\ field "_ref" (get result "author") = JStr (Session.id session)
    /\ get result "status" = JStr "SUCCESS".
Proof.
  intros Hauth Hin Hcreate Hecho.
  destruct (createPitch_creates_only _ _ _ _ _ Hin) as (session' & slug & Hauth' & Hslug & ->).
  assert (session' = session) as -> by congruence.
  exists slug, (success_of created). split; [assumption|].
  rewrite (createPitch_written env state form pitch session Hauth slug Hslug created Hcreate).
  split; [reflexivity|].
  rewrite !success_of_keeps by discriminate.
  assert (get created "slug" = JObj {[ "_type" := JStr slug; "current" := JStr slug ]})
    as -> by (unfold get;
              by rewrite (lookup_weaken _ _ _ _ (created_document_slug form slug session pitch) Hecho)).
  assert (get created "author"
          = JObj {[ "_type" := JStr "reference"; "_ref" := JStr (Session.id session) ]})
    as -> by (unfold get;
              by rewrite (lookup_weaken _ _ _ _ (created_document_author form slug session pitch) Hecho)).
  repeat split; try reflexivity. apply success_of_status.
Qed.

Lemma createPitch_slug_and_author_witness :
  exists slug result,
    slugify demo_env (submitted_title demo_form) slug_options = inr slug
    /\ outcome (createPitch demo_env JNull demo_form demo_pitch) = inr result
    /\ field "current" (get result "slug") = JStr slug
    /\ field "_ref" (get result "author") = JStr (Session.id demo_session)
    /\ get result "status" = JStr "SUCCESS".
Proof.
  apply (createPitch_slug_and_author demo_env JNull demo_form demo_pitch demo_session
           (created_document demo_form "acme" demo_session demo_pitch)
           (<["_id" := JStr "doc-1"]>
              (created_document demo_form "acme" demo_session demo_pitch))).
  - reflexivity.
  - cbn. right. left.
  - reflexivity.
  - apply insert_subseteq. reflexivity.
Defined.

(** C2.  Without a session, [createPitch] answers with status "ERROR" and
    error "Not signed in", and its only interaction is the call to [auth]:
    no document is written. *)
Theorem createPitch_without_session env state form pitch :
  auth env = None ->
  exists result,
    outcome (createPitch env state form pitch) = inr result
    /\ get result "status" = JStr "ERROR"
    /\ get result "error" = JStr "Not signed in"
    /\ trace (createPitch env state form pitch) = [Auth]
    /\ forall ev, ev ∈ trace (createPitch env state form pitch) -> is_write ev = false.
Proof.
  intros Hauth. exists not_signed_in.
  rewrite (createPitch_signed_out env state form pitch Hauth). cbn.
  repeat split; try reflexivity.
  intros ev Hev. apply list_elem_of_singleton in Hev. subst ev. reflexivity.
Qed.

Lemma createPitch_without_session_witness :
  exists result,
    outcome (createPitch (with_auth None demo_env) JNull demo_form demo_pitch) = inr result
    /\ get result "status" = JStr "ERROR"
    /\ get result "error" = JStr "Not signed in"
    /\ trace (createPitch (with_auth None demo_env) JNull demo_form demo_pitch) = [Auth]
    /\ forall ev,
         ev ∈ trace (createPitch (with_auth None demo_env) JNull demo_form demo_pitch) ->
         is_write ev = false.
Proof.
  apply (createPitch_without_session (with_auth None demo_env) JNull demo_form demo_pitch).
  reflexivity.
Defined.

(** C10.  In every document [createPitch] creates, the slug object's
    [_type] is the slugified title itself, the same string as its
    [current]. *)
Theorem createPitch_slug_type_is_slug env state form pitch doc :
  CmsCreate doc ∈ trace (createPitch env state form pitch) ->
  exists slug,
    slugify env (submitted_title form) slug_options = inr slug
    /\ field "_type" (get doc "slug") = JStr slug
    /\ field "current" (get doc "slug") = JStr slug
    /\ field "_type" (get doc "slug") = field "current" (get doc "slug").
Proof.
  intros Hin.
  destruct (createPitch_creates_only _ _ _ _ _ Hin) as (session & slug & _ & Hslug & ->).
  exists slug. split; [assumption|].
  unfold get. rewrite created_document_slug. repeat split; reflexivity.
Qed.

Lemma createPitch_slug_type_is_slug_witness :
  exists slug,
    slugify demo_env (submitted_title demo_form) slug_options = inr slug
    /\ field "_type" (get (created_document demo_form "acme" demo_session demo_pitch) "slug")
       = JStr slug
    /\ field "current" (get (created_document demo_form "acme" demo_session demo_pitch) "slug")
       = JStr slug
    /\ field "_type" (get (created_document demo_form "acme" demo_session demo_pitch) "slug")
       = field "current"
           (get (created_document demo_form "acme" demo_session demo_pitch) "slug").
Proof.
  apply (createPitch_slug_type_is_slug demo_env JNull demo_form demo_pitch).
  cbn. right. left.
Defined.

(** ** Failures inside and outside the action's [try] block *)

(** Once the slug has been computed the action always answers: a failing
    write is logged and reported in the [error] field with status "ERROR". *)
Lemma createPitch_write_failure_caught env state form pitch session slug e :
  auth env = Some session ->
  slugify env (submitted_title form) slug_options = inr slug ->
  writeClient_create env (created_document form slug session pitch) = inl e ->
  exists result,
    outcome (createPitch env state form pitch) = inr result
    /\ get result "status" = JStr "ERROR"
    /\ get result "error" = JSON_stringify env e.
Proof.
  intros Hauth Hslug Hcreate. exists (error_of env e).
  rewrite (createPitch_write_throws env state form pitch session Hauth slug Hslug e Hcreate).
  repeat split; reflexivity.
Qed.

Lemma createPitch_answers_after_slug env state form pitch session slug :
  auth env = Some session ->
  slugify env (submitted_title form) slug_options = inr slug ->
  exists result, outcome (createPitch env state form pitch) = inr result.
Proof.
  intros Hauth Hslug.
  destruct (writeClient_create env (created_document form slug session pitch))
    as [e|created] eqn:Hcreate.
  - rewrite (createPitch_write_throws env state form pitch session Hauth slug Hslug e Hcreate).
    eauto.
  - rewrite (createPitch_written env state form pitch session Hauth slug Hslug created Hcreate).
    eauto.
Qed.

(** The slug is derived before the [try] block is entered: whatever
    [slugify] throws leaves the action as it is. *)
Lemma createPitch_slug_failure_propagates env state form pitch session e :
  auth env = Some session ->
  slugify env (submitted_title form) slug_options = inl e ->
  outcome (createPitch env state form pitch) = inl e.
Proof.
  intros Hauth Hslug.
  rewrite (createPitch_slug_throws env state form pitch session Hauth e Hslug).
  reflexivity.
Qed.

(** A store that rejects the write: the failure is logged and answered. *)
Example createPitch_rejected_write :
  let env := with_create (reject_all "Insufficient permissions") demo_env in
  createPitch env JNull demo_form demo_pitch
  = MkM (inr {[ "error" := JStr "{}"; "status" := JStr "ERROR" ]})
        [Auth;
         CmsCreate (created_document demo_form "acme" demo_session demo_pitch);
         ConsoleLog (Rejected (JStr "Insufficient permissions"))].
Proof. reflexivity. Qed.

(** C3, at a form that has no [title] entry and a signed-in caller:
    [slugify(undefined, ...)] throws on line 44, before the [try] of line
    46, and the caller of [createPitch] receives that exception instead of
    a result with status "ERROR". *)
Theorem createPitch_slug_exception_escapes :
  submitted_title form_without_title = JUndefined
  /\ outcome (createPitch demo_env JNull form_without_title demo_pitch)
     = inl (Error "slugify: string argument expected")
  /\ trace (createPitch demo_env JNull form_without_title demo_pitch) = [Auth].
Proof. repeat split; reflexivity. Qed.

(** ** Validation *)

(** The schema of the spec rejects an empty title whatever its URL test and
    its minimum pitch length are. *)
Lemma formSchema_rejects_empty_title is_url min_pitch (values : JObject) :
  get values "title" = JStr "" ->
  exists errors, formSchema is_url min_pitch values = inl (ZodError errors).
Proof.
  intros Htitle. unfold formSchema. rewrite Htitle. cbn. eauto.
Qed.

(** In the submit handler a candidate the schema rejects never reaches the
    action: the handler's interactions are the error display only. *)
Lemma handleFormSubmit_rejected_no_write env pitch prevState formData e :
  formSchema_parseAsync env (form_values formData pitch) = inl e ->
  forall ev, ev ∈ trace (handleFormSubmit env pitch prevState formData) ->
             is_write ev = false /\ ev ≠ Auth.
Proof.
  intros Hparse ev. unfold handleFormSubmit; run_M.
  fold (form_values formData pitch). rewrite Hparse. cbn.
  destruct e; cbn; intros Hev;
    repeat (apply elem_of_cons in Hev as [->|Hev]; [split; [reflexivity|discriminate]|]);
    inversion Hev.
Qed.

(** C4, at a direct call of the action with an empty title and a signed-in
    caller: the form schema rejects the candidate, yet [createPitch], which
    never consults the schema, writes the document. *)
Theorem createPitch_writes_unvalidated :
  (exists errors,
      formSchema_parseAsync demo_env (form_values form_with_empty_title demo_pitch)
      = inl (ZodError errors))
  /\ trace (createPitch demo_env JNull form_with_empty_title demo_pitch)
     = [Auth; CmsCreate (created_document form_with_empty_title "" demo_session demo_pitch)]
  /\ get (created_document form_with_empty_title "" demo_session demo_pitch) "title"
     = JStr ""
  /\ exists result,
       outcome (createPitch demo_env JNull form_with_empty_title demo_pitch) = inr result
       /\ get result "status" = JStr "SUCCESS".
Proof.
  split; [eexists; reflexivity|].
  split; [reflexivity|]. split; [reflexivity|].
  eexists. split; reflexivity.
Qed.

(** ** The view counter *)

Lemma View_observed env id d :
  client_fetch env STARTUP_VIEWS_QUERY views_config (views_params id) = inr (Some d) ->
  View env id
  = MkM (inr (view_tree (ViewsDoc.views d)))
        [CmsFetch STARTUP_VIEWS_QUERY views_config (views_params id);
         After (writeClient_commit env id (views_update (ViewsDoc.views d)))
               [CmsPatch id (views_update (ViewsDoc.views d))]].
Proof.
  intros Hfetch. unfold View; run_M.
  fold views_config. fold (views_params id). rewrite Hfetch. reflexivity.
Qed.

(** C5.  When the count has been read, the component itself performs no
    write: it hands one callback to [after], and in the request as the
    framework runs it the single write, which sets [views] to the observed
    count plus one, comes after the response has been flushed.  The response
    is the same whatever the write collaborator answers. *)
Theorem View_increment_after_flush env id d :
  client_fetch env STARTUP_VIEWS_QUERY views_config (views_params id) = inr (Some d) ->
  let observed := ViewsDoc.views d in
  trace (View env id)
  = [CmsFetch STARTUP_VIEWS_QUERY views_config (views_params id);
     After (writeClient_commit env id (views_update observed))
           [CmsPatch id (views_update observed)]]
  /\ respond (View env id)
     = [CmsFetch STARTUP_VIEWS_QUERY views_config (views_params id);
        ResponseFlushed (inr (view_tree observed));
        CmsPatch id {[ "views" := JNum (to_number observed + 1) ]}]
  /\ forall commit,
       response_body (View (with_commit commit env) id) = response_body (View env id).
Proof.
  intros Hfetch observed. rewrite (View_observed env id d Hfetch).
  split; [reflexivity|]. split; [reflexivity|].
  intros commit.
  rewrite (View_observed (with_commit commit env) id d Hfetch). reflexivity.
Qed.

Lemma View_increment_after_flush_witness :
  trace (View demo_env "doc-1")
  = [CmsFetch STARTUP_VIEWS_QUERY views_config (views_params "doc-1");
     After (writeClient_commit demo_env "doc-1" (views_update (Some 1)))
           [CmsPatch "doc-1" (views_update (Some 1))]]
  /\ respond (View demo_env "doc-1")
     = [CmsFetch STARTUP_VIEWS_QUERY views_config (views_params "doc-1");
        ResponseFlushed (inr (view_tree (Some 1)));
        CmsPatch "doc-1" {[ "views" := JNum 2 ]}]
  /\ forall commit,
       response_body (View (with_commit commit demo_env) "doc-1")
       = response_body (View demo_env "doc-1").
Proof.
  apply (View_increment_after_flush demo_env "doc-1"
           {| ViewsDoc._id := "doc-1"; ViewsDoc.views := Some 1 |}).
  reflexivity.
Defined.

(** C6.  For a count [n >= 0] the label inside the [font-black] span reads
    "No views" for 0, "1 view" for 1, and the number followed by " views"
    from 2 on. *)
Theorem View_count_text env id d n :
  client_fetch env STARTUP_VIEWS_QUERY views_config (views_params id) = inr (Some d) ->
  ViewsDoc.views d = Some n ->
  0 <= n ->
  exists tree label,
    outcome (View env id) = inr tree
    /\ at_path [1; 0; 0]%nat tree = Some label
    /\ textContent label
       = match n with
         | 0 => "No views"
         | 1 => "1 view"
         | _ => pretty n +:+ " views"
         end.
Proof.
  intros Hfetch Hviews Hn. rewrite (View_observed env id d Hfetch), Hviews.
  exists (view_tree (Some n)), (view_label (Some n)).
  split; [reflexivity|]. split; [reflexivity|].
  unfold view_label, less_than_one, is_one, to_number; cbn [default num].
  destruct n as [|p|p]; [reflexivity| |lia].
  destruct p; reflexivity.
Qed.

Lemma View_count_text_witness :
  exists tree label,
    outcome (View demo_env "doc-1") = inr tree
    /\ at_path [1; 0; 0]%nat tree = Some label
    /\ textContent label = "1 view".
Proof.
  apply (View_count_text demo_env "doc-1"
           {| ViewsDoc._id := "doc-1"; ViewsDoc.views := Some 1 |} 1).
  - reflexivity.
  - reflexivity.
  - lia.
Defined.

Example view_label_two : textContent (view_label (Some 2)) = "2 views".
Proof. reflexivity. Qed.

(** A count the store has not set yet reads [null]: it shows as no views and
    the scheduled write sets it to 1. *)
Example view_label_null :
  textContent (view_label None) = "No views" /\ plus_one None = 1.
Proof. split; reflexivity. Qed.

(** ** The detail page *)

Section Page_cases.
Context (env : Collaborators) (id : string).

Let startup_read := client_fetch env STARTUP_BY_ID_QUERY ∅ (by_id_params id).
Let playlist_read := client_fetch env PLAYLIST_BY_SLUG_QUERY ∅ editor_picks_params.

(** Both reads are issued on every request, and nothing else is. *)
Lemma Page_trace : trace (Page env id) = page_reads id.
Proof.
  unfold Page, Promise_all2; run_M.
  fold (by_id_params id). fold editor_picks_params.
  cbn [outcome trace].
  destruct (client_fetch env STARTUP_BY_ID_QUERY ∅ (by_id_params id)) as [e1|post];
    destruct (client_fetch env PLAYLIST_BY_SLUG_QUERY ∅ editor_picks_params)
      as [e2|[playlist|]];
    cbn; try reflexivity; destruct post; reflexivity.
Qed.

(** A rejected read is what the page throws: not-found is decided only
    when both reads have answered. *)
Lemma Page_read_rejected :
  (forall e, startup_read = inl e -> outcome (Page env id) = inl e)
  /\ (forall post e, startup_read = inr post -> playlist_read = inl e ->
                     outcome (Page env id) = inl e).
Proof.
  subst startup_read playlist_read. split.
  - intros e H. unfold Page, Promise_all2; run_M.
    fold (by_id_params id). rewrite H. reflexivity.
  - intros post e H1 H2. unfold Page, Promise_all2; run_M.
    fold (by_id_params id). fold editor_picks_params. rewrite H1, H2. reflexivity.
Qed.

(** With the playlist at hand, an id that resolves to nothing ends the
    page with the not-found outcome. *)
Lemma Page_not_found playlist :
  startup_read = inr None ->
  playlist_read = inr (Some playlist) ->
  Page env id = MkM (inl NEXT_NOT_FOUND) (page_reads id).
Proof.
  subst startup_read playlist_read. intros H1 H2.
  unfold Page, Promise_all2; run_M.
  fold (by_id_params id). fold editor_picks_params. rewrite H1, H2. reflexivity.
Qed.

(** Without the playlist the destructuring of line 49 throws, whatever the
    entity read answered. *)
Lemma Page_without_playlist post :
  startup_read = inr post ->
  playlist_read = inr None ->
  outcome (Page env id)
  = inl (TypeError "Cannot destructure property 'select' of null").
Proof.
  subst startup_read playlist_read. intros H1 H2.
  unfold Page, Promise_all2; run_M.
  fold (by_id_params id). fold editor_picks_params. rewrite H1, H2. reflexivity.
Qed.
End Page_cases.

(** C7, at an id that resolves to nothing in a store that has no
    "editor-picks" playlist: both reads answer [null], and the page throws a
    TypeError from the destructuring of line 49 instead of reaching
    [notFound()] on line 55. *)
Theorem Page_missing_entity_without_playlist :
  client_fetch store_without_playlist STARTUP_BY_ID_QUERY ∅ (by_id_params "missing")
  = inr None
  /\ client_fetch store_without_playlist PLAYLIST_BY_SLUG_QUERY ∅ editor_picks_params
     = inr None
  /\ trace (Page store_without_playlist "missing") = page_reads "missing"
  /\ outcome (Page store_without_playlist "missing")
     = inl (TypeError "Cannot destructure property 'select' of null")
  /\ outcome (Page store_without_playlist "missing") ≠ inl NEXT_NOT_FOUND.
Proof. repeat split; try reflexivity. discriminate. Qed.

Lemma or_empty_default (s : option string) : or_empty s = default "" s.
Proof. destruct s as [[|c s]|]; reflexivity. Qed.

(** C9, amended.  On a detail page that renders (the entity and the
    playlist are there), the block after the "Pitch Details" heading is the
    "No details provided" placeholder exactly when the Markdown conversion
    of the pitch body (of the empty string for an empty or absent body) is
    empty, and otherwise the article holding the converted HTML. *)
Theorem Page_pitch_block env id post playlist :
  client_fetch env STARTUP_BY_ID_QUERY ∅ (by_id_params id) = inr (Some post) ->
  client_fetch env PLAYLIST_BY_SLUG_QUERY ∅ editor_picks_params = inr (Some playlist) ->
  let html := md_render env (default "" (Startup.pitch post)) in
  exists tree,
    outcome (Page env id) = inr tree
    /\ at_path [1; 1; 1]%nat tree
       = Some (NElem "h3" [className "text-30-bold"] [NText "Pitch Details"])
    /\ at_path [1; 1; 2]%nat tree
       = Some (if String.eqb html "" then no_details else details_article html).
Proof.
  intros H1 H2 html.
  unfold Page, Promise_all2; run_M.
  fold (by_id_params id). fold editor_picks_params. rewrite H1, H2.
  cbn [outcome trace fst snd mret M_ret ret].
  eexists. split; [reflexivity|]. split; [reflexivity|].
  cbn. unfold pitch_details. rewrite or_empty_default. fold html.
  destruct (String.eqb html ""); reflexivity.
Qed.

Lemma Page_pitch_block_witness :
  exists tree,
    outcome (Page (store_with_post (Some "# Shovels")) "doc-1") = inr tree
    /\ at_path [1; 1; 1]%nat tree
       = Some (NElem "h3" [className "text-30-bold"] [NText "Pitch Details"])
    /\ at_path [1; 1; 2]%nat tree = Some (details_article "# Shovels").
Proof.
  apply (Page_pitch_block (store_with_post (Some "# Shovels")) "doc-1"
           (demo_post (Some "# Shovels")) no_picks).
  - reflexivity.
  - reflexivity.
Defined.

(** C9 as stated fails at a pitch body that is not empty but blank: with a
    converter that renders a blank source to nothing, the page shows the
    placeholder, not the converted HTML. *)
Lemma Page_blank_pitch_shows_placeholder :
  Startup.pitch (demo_post (Some " ")) = Some " "
  /\ " " ≠ ""
  /\ exists tree,
       outcome (Page (with_md md_paragraph (store_with_post (Some " "))) "doc-1")
       = inr tree
       /\ at_path [1; 1; 2]%nat tree = Some no_details
       /\ at_path [1; 1; 2]%nat tree
          ≠ Some (details_article (md_paragraph " ")).
Proof.
  split; [reflexivity|]. split; [discriminate|].
  eexists. split; [reflexivity|]. split; [reflexivity|]. discriminate.
Qed.

(** With a pitch body that is empty or absent the source handed to the
    converter is the empty string. *)
Example Page_empty_pitch_source :
  or_empty None = "" /\ or_empty (Some "") = "".
Proof. split; reflexivity. Qed.

(** ** The list page *)

(** C8.  The list query is called once, with [search] set to the search
    text when there is one and to [null] when the query parameter is absent
    or empty; the grid holds one card per post, or the "No Results Found"
    message when the list is empty. *)
Theorem Home_filter_and_empty_list env query posts :
  sanityFetch env STARTUPS_QUERY (list_params query) = inr posts ->
  list_params query
  = {[ "search" := match query with
                   | Some "" | None => JNull
                   | Some text => JStr text
                   end ]}
  /\ trace (Home env query) = [LiveFetch STARTUPS_QUERY (list_params query)]
  /\ exists tree,
       outcome (Home env query) = inr tree
       /\ at_path [1; 1]%nat tree
          = Some (NElem "ul" [className "card_grid mt-7"]
                    match posts with
                    | [] => [no_results]
                    | _ :: _ => map list_card posts
                    end).
Proof.
  intros Hfetch. split.
  { destruct query as [[|c text]|]; reflexivity. }
  unfold Home; run_M. rewrite Hfetch.
  split; [reflexivity|].
  eexists. split; [reflexivity|].
  cbn. unfold startup_cards. destruct posts; reflexivity.
Qed.

Lemma Home_filter_and_empty_list_witness :
  list_params (Some "health") = {[ "search" := JStr "health" ]}
  /\ trace (Home demo_env (Some "health"))
     = [LiveFetch STARTUPS_QUERY (list_params (Some "health"))]
  /\ exists tree,
       outcome (Home demo_env (Some "health")) = inr tree
       /\ at_path [1; 1]%nat tree
          = Some (NElem "ul" [className "card_grid mt-7"] [no_results]).
Proof.
  apply (Home_filter_and_empty_list demo_env (Some "health") []).
  reflexivity.
Defined.

(** Without search text the list is fetched unfiltered. *)
Example Home_unfiltered :
  list_params None = {[ "search" := JNull ]}
  /\ list_params (Some "") = {[ "search" := JNull ]}.
Proof. split; reflexivity. Qed.

(** * Further properties of the action *)

(** ** Reading the form *)

Lemma form_fields_without_pitch (form : FormData) :
  form_fields (filter (fun e => fst e ≠ "pitch") form) = form_fields form.
Proof.
  unfold form_fields. apply (f_equal Object_fromEntries).
  unfold FormData in *.
  induction form as [|[k v] form IH]; [reflexivity|].
  rewrite filter_cons. cbn [fst]. case_decide as Hk.
  - cbn [Array_from map fst snd]. rewrite !filter_cons. cbn [fst].
    case_decide; [|contradiction]. f_equal. exact IH.
  - rewrite IH. cbn [Array_from map fst snd]. rewrite filter_cons. cbn [fst].
    case_decide; [contradiction|reflexivity].
Qed.

(** The action never looks at a form entry named "pitch": the body it
    stores is the one passed beside the form. *)
Theorem createPitch_ignores_pitch_entries env state form pitch :
  createPitch env state form pitch
  = createPitch env state (filter (fun e => fst e ≠ "pitch") form) pitch.
Proof.
  unfold createPitch. rewrite form_fields_without_pitch. reflexivity.
Qed.

Lemma Object_fromEntries_snoc (entries : list (string * JValue)) k v :
  Object_fromEntries (entries ++ [(k, v)]) = <[k := v]> (Object_fromEntries entries).
Proof. unfold Object_fromEntries. rewrite foldl_app. reflexivity. Qed.

(** In an object built from entries, a key that occurs with one value only
    reads that value. *)
Lemma Object_fromEntries_lookup (entries : list (string * JValue)) k v :
  (k, v) ∈ entries ->
  (forall v', (k, v') ∈ entries -> v' = v) ->
  Object_fromEntries entries !! k = Some v.
Proof.
  induction entries as [|[k' v'] entries IH] using rev_ind; intros Hin Huniq.
  - inversion Hin.
  - rewrite Object_fromEntries_snoc.
    destruct (decide (k' = k)) as [->|Hne].
    + rewrite lookup_insert_eq. f_equal. apply Huniq.
      apply elem_of_app. right. apply list_elem_of_singleton. reflexivity.
    + rewrite lookup_insert_ne by assumption.
      apply elem_of_app in Hin as [Hin|Hin].
      * apply IH; [assumption|]. intros v'' H''. apply Huniq.
        apply elem_of_app. left. assumption.
      * apply list_elem_of_singleton in Hin. congruence.
Qed.

Lemma unique_key_value (form : FormData) k v v' :
  NoDup (map fst form) -> (k, v) ∈ form -> (k, v') ∈ form -> v = v'.
Proof.
  induction form as [|[k0 v0] form IH]; intros Hnd H1 H2; [inversion H1|].
  cbn in Hnd. apply NoDup_cons in Hnd as [Hfresh Hnd].
  apply elem_of_cons in H1 as [H1|H1]; apply elem_of_cons in H2 as [H2|H2].
  - congruence.
  - exfalso. apply Hfresh. injection H1 as <- <-.
    apply (list_elem_of_fmap_2 fst) in H2. exact H2.
  - exfalso. apply Hfresh. injection H2 as <- <-.
    apply (list_elem_of_fmap_2 fst) in H1. exact H1.
  - eauto.
Qed.

Lemma FormData_get_first (form : FormData) k v :
  NoDup (map fst form) -> (k, v) ∈ form -> FormData_get form k = entry_value v.
Proof.
  unfold FormData_get.
  induction form as [|[k0 v0] form IH]; intros Hnd Hin; [inversion Hin|].
  cbn in Hnd. apply NoDup_cons in Hnd as [Hfresh Hnd].
  cbn [List.find fst snd].
  apply elem_of_cons in Hin as [Hin|Hin].
  - injection Hin as <- <-. rewrite String.eqb_refl. reflexivity.
  - destruct (String.eqb_spec k0 k) as [->|Hne].
    + exfalso. apply Hfresh. apply (list_elem_of_fmap_2 fst) in Hin. exact Hin.
    + apply IH; assumption.
Qed.

(** On a form whose field names are all different, the value the submit
    handler validates ([form.get]) and the value the action stores
    ([Object.fromEntries]) are the same entry. *)
Theorem form_readers_agree (form : FormData) k v :
  NoDup (map fst form) ->
  (k, v) ∈ form ->
  k ≠ "pitch" ->
  FormData_get form k = entry_value v
  /\ get (form_fields form) k = entry_value v.
Proof.
  intros Hnd Hin Hk. split; [apply FormData_get_first; assumption|].
  unfold get, form_fields.
  erewrite Object_fromEntries_lookup; [reflexivity| |].
  - apply list_elem_of_filter. split; [exact Hk|].
    unfold Array_from.
    apply (list_elem_of_fmap_2 (fun e => (fst e, entry_value (snd e))) form (k, v)).
    exact Hin.
  - intros v' Hv'. apply list_elem_of_filter in Hv' as [_ Hv'].
    unfold Array_from in Hv'. apply list_elem_of_fmap in Hv' as ([k1 v1] & Heq & Hin').
    cbn in Heq. injection Heq as <- ->.
    f_equal. exact (unique_key_value form k v1 v Hnd Hin' Hin).
Qed.

Lemma form_readers_agree_witness :
  FormData_get demo_form "link" = JStr "https://example.com/a.png"
  /\ get (form_fields demo_form) "link" = JStr "https://example.com/a.png".
Proof.
  apply (form_readers_agree demo_form "link" (FString "https://example.com/a.png")).
  - apply (bool_decide_unpack _). vm_compute. exact I.
  - unfold demo_form. right. right. right. left.
  - discriminate.
Defined.

(** When a field name occurs twice the two readers part ways: the submit
    handler validates the first entry, the action stores the last one. *)
Theorem form_readers_differ_on_duplicates (middle : FormData) k v1 v2 :
  k ≠ "pitch" ->
  FormData_get ((k, v1) :: middle ++ [(k, v2)]) k = entry_value v1
  /\ get (form_fields ((k, v1) :: middle ++ [(k, v2)])) k = entry_value v2.
Proof.
  intros Hk. split.
  - unfold FormData_get. cbn [List.find fst snd]. rewrite String.eqb_refl. reflexivity.
  - change ((k, v1) :: middle ++ [(k, v2)]) with (((k, v1) :: middle) ++ [(k, v2)]).
    unfold get, form_fields, Array_from. rewrite map_app, filter_app.
    cbn [map fst snd]. rewrite (filter_cons_True _ (k, entry_value v2)) by exact Hk.
    rewrite filter_nil, Object_fromEntries_snoc, lookup_insert_eq. reflexivity.
Qed.

Lemma form_readers_differ_on_duplicates_witness :
  FormData_get (("title", FString "acme") :: demo_form ++ [("title", FString "")]) "title"
  = JStr "acme"
  /\ get (form_fields (("title", FString "acme") :: demo_form ++ [("title", FString "")]))
         "title"
     = JStr "".
Proof.
  apply (form_readers_differ_on_duplicates demo_form "title" (FString "acme") (FString "")).
  discriminate.
Defined.

(** ** Writes and answers *)

(** The writes of one call: the creation of the pitch document when the
    caller is signed in and the slug could be derived, and nothing
    otherwise.  There is never a second write and never a patch. *)
Theorem createPitch_writes env state form pitch :
  writes (trace (createPitch env state form pitch))
  = match auth env, slugify env (submitted_title form) slug_options with
    | Some session, inr slug => [CmsCreate (created_document form slug session pitch)]
    | _, _ => []
    end.
Proof.
  destruct (auth env) as [session|] eqn:Hauth.
  2:{ rewrite (createPitch_signed_out env state form pitch Hauth). reflexivity. }
  destruct (slugify env (submitted_title form) slug_options) as [e|slug] eqn:Hslug.
  { rewrite (createPitch_slug_throws env state form pitch session Hauth e Hslug).
    reflexivity. }
  destruct (writeClient_create env (created_document form slug session pitch))
    as [e|created] eqn:Hcreate.
  - rewrite (createPitch_write_throws env state form pitch session Hauth slug Hslug e Hcreate).
    reflexivity.
  - rewrite (createPitch_written env state form pitch session Hauth slug Hslug created Hcreate).
    reflexivity.
Qed.



(** Round trip of the submitted fields: on a form with distinct field
    names, when the document is accepted and the store answers with the
    created document, the result carries each of title, description and
    category under its own name and the link under [image]. *)
Theorem createPitch_result_fields env state form pitch session slug created k v :
  auth env = Some session ->
  slugify env (submitted_title form) slug_options = inr slug ->
  writeClient_create env (created_document form slug session pitch) = inr created ->
  created_document form slug session pitch ⊆ created ->
  NoDup (map fst form) ->
  (k, v) ∈ form ->
  k ∈ ["title"; "description"; "category"; "link"] ->
  exists result,
    outcome (createPitch env state form pitch) = inr result
    /\ get result (document_field k) = entry_value v
    /\ get result "pitch" = JStr pitch.
Proof.
  intros Hauth Hslug Hcreate Hecho Hnd Hin Hk.
  rewrite (createPitch_written env state form pitch session Hauth slug Hslug created Hcreate).
  exists (success_of created). split; [reflexivity|].
  assert (k ≠ "pitch") as Hnp.
  { intros ->. repeat (apply elem_of_cons in Hk as [Hk|Hk]; [discriminate|]).
    inversion Hk. }
  destruct (form_readers_agree form k v Hnd Hin Hnp) as [_ Hfield].
  assert (created_document form slug session pitch !! document_field k
          = Some (entry_value v)) as Hdoc.
  { rewrite <- Hfield.
    repeat (apply elem_of_cons in Hk as [->|Hk]; [reflexivity|]). inversion Hk. }
  assert (document_field k ≠ "error" /\ document_field k ≠ "status") as [He Hs].
  { repeat (apply elem_of_cons in Hk as [->|Hk]; [split; discriminate|]). inversion Hk. }
  split.
  - rewrite success_of_keeps by assumption.
    unfold get. rewrite (lookup_weaken _ _ _ _ Hdoc Hecho). reflexivity.
  - rewrite success_of_keeps by discriminate.
    unfold get. erewrite (lookup_weaken _ created "pitch"); [reflexivity| |exact Hecho].
    reflexivity.
Qed.

Lemma createPitch_result_fields_witness :
  exists result,
    outcome (createPitch demo_env JNull demo_form demo_pitch) = inr result
    /\ get result "image" = JStr "https://example.com/a.png"
    /\ get result "pitch" = JStr demo_pitch.
Proof.
  apply (createPitch_result_fields demo_env JNull demo_form demo_pitch demo_session "acme"
           (<["_id" := JStr "doc-1"]>
              (created_document demo_form "acme" demo_session demo_pitch))
           "link" (FString "https://example.com/a.png")).
  - reflexivity.
  - reflexivity.
  - reflexivity.
  - apply insert_subseteq. reflexivity.
  - apply (bool_decide_unpack _). vm_compute. exact I.
  - unfold demo_form. right. right. right. left.
  - right. right. right. left.
Defined.

(** * The submit handler *)

(** The handler, case by case on what its collaborators answer. *)
Lemma handleFormSubmit_cases env pitch prevState formData :
  handleFormSubmit env pitch prevState formData
  = match formSchema_parseAsync env (form_values formData pitch) with
    | inl e => caught prevState [] e
    | inr _ =>
        match auth env with
        | None => MkM (inr not_signed_in) [Auth]
        | Some session =>
            match slugify env (submitted_title formData) slug_options with
            | inl e => caught prevState [Auth] e
            | inr slug =>
                let doc := created_document formData slug session pitch in
                match writeClient_create env doc with
                | inl e => MkM (inr (error_of env e)) [Auth; CmsCreate doc; ConsoleLog e]
                | inr created =>
                    MkM (inr (success_of created))
                        [Auth; CmsCreate doc; Toast success_toast;
                         RouterPush (startup_href (js_toString (get created "_id")))]
                end
            end
        end
    end.
Proof.
  unfold handleFormSubmit; run_M. fold (form_values formData pitch).
  destruct (formSchema_parseAsync env (form_values formData pitch)) as [e|parsed].
  { destruct e; reflexivity. }
  cbn [outcome trace].
  destruct (auth env) as [session|] eqn:Hauth.
  2:{ rewrite (createPitch_signed_out env (JObj prevState) formData pitch Hauth).
      reflexivity. }
  destruct (slugify env (submitted_title formData) slug_options) as [e|slug] eqn:Hslug.
  { rewrite (createPitch_slug_throws env (JObj prevState) formData pitch session Hauth e Hslug).
    destruct e; reflexivity. }
  cbv zeta.
  destruct (writeClient_create env (created_document formData slug session pitch))
    as [e|created] eqn:Hcreate.
  - rewrite (createPitch_write_throws env (JObj prevState) formData pitch session
               Hauth slug Hslug e Hcreate).
    reflexivity.
  - rewrite (createPitch_written env (JObj prevState) formData pitch session
               Hauth slug Hslug created Hcreate).
    cbn [outcome trace].
    rewrite (proj1 (success_of_status created)).
    rewrite (success_of_keeps created "_id") by discriminate.
    reflexivity.
Qed.

Lemma caught_answers prevState t e :
  exists result,
    outcome (caught prevState t e) = inr result
    /\ get result "status" = JStr "ERROR".
Proof.
  destruct e; eexists; (split; [reflexivity|]);
    unfold get, validation_failed, unexpected_error, js_assign;
    (erewrite lookup_union_Some_l; [reflexivity|reflexivity]).
Qed.

(** The handler always hands a state object back to the form, whatever its
    collaborators do, and that state's status is "SUCCESS" or "ERROR". *)
Theorem handleFormSubmit_always_answers env pitch prevState formData :
  exists result,
    outcome (handleFormSubmit env pitch prevState formData) = inr result
    /\ (get result "status" = JStr "SUCCESS" \/ get result "status" = JStr "ERROR").
Proof.
  rewrite handleFormSubmit_cases.
  destruct (formSchema_parseAsync env (form_values formData pitch)) as [e|parsed].
  { destruct (caught_answers prevState [] e) as (r & Hr & Hs). eauto. }
  destruct (auth env) as [session|]; [|eexists; split; [reflexivity|right; reflexivity]].
  destruct (slugify env (submitted_title formData) slug_options) as [e|slug].
  { destruct (caught_answers prevState [Auth] e) as (r & Hr & Hs). eauto. }
  cbv zeta.
  destruct (writeClient_create env (created_document formData slug session pitch))
    as [e|created].
  - eexists; split; [reflexivity|right; reflexivity].
  - eexists; split; [reflexivity|left; apply success_of_status].
Qed.

(** A candidate the schema rejects: the field errors are stored for display,
    one destructive toast is shown, and the previous state comes back with
    error "Validation failed" and status "ERROR", its other fields kept.
    Neither the session nor the store is touched. *)
Theorem handleFormSubmit_validation_failed env pitch prevState formData fieldErrors :
  formSchema_parseAsync env (form_values formData pitch) = inl (ZodError fieldErrors) ->
  exists result,
    handleFormSubmit env pitch prevState formData
    = MkM (inr result) [SetErrors fieldErrors; Toast validation_toast]
    /\ get result "error" = JStr "Validation failed"
    /\ get result "status" = JStr "ERROR"
    /\ forall k, k ≠ "error" -> k ≠ "status" -> get result k = get prevState k.
Proof.
  intros Hparse. rewrite handleFormSubmit_cases, Hparse.
  exists (validation_failed prevState). split; [reflexivity|].
  unfold get, validation_failed, js_assign. repeat split.
  - erewrite lookup_union_Some_l; reflexivity.
  - erewrite lookup_union_Some_l; reflexivity.
  - intros k He Hs. rewrite lookup_union_r; [reflexivity|].
    rewrite lookup_insert_ne by congruence.
    rewrite lookup_singleton_ne by congruence. reflexivity.
Qed.

Lemma handleFormSubmit_validation_failed_witness :
  exists result,
    handleFormSubmit demo_env demo_pitch {[ "step" := JNum 1 ]} form_with_empty_title
    = MkM (inr result)
          [SetErrors (list_to_map [("title", JArr [JStr "Invalid"])]);
           Toast validation_toast]
    /\ get result "error" = JStr "Validation failed"
    /\ get result "status" = JStr "ERROR"
    /\ forall k, k ≠ "error" -> k ≠ "status" ->
                 get result k = get ({[ "step" := JNum 1 ]} : JObject) k.
Proof.
  apply (handleFormSubmit_validation_failed demo_env demo_pitch {[ "step" := JNum 1 ]}
           form_with_empty_title).
  reflexivity.
Defined.

(** An accepted candidate whose document the store takes: one write, the
    success toast, and a navigation to the page of the id the store
    assigned; the action's answer is handed back unchanged. *)
Theorem handleFormSubmit_created env pitch prevState formData parsed session slug created :
  formSchema_parseAsync env (form_values formData pitch) = inr parsed ->
  auth env = Some session ->
  slugify env (submitted_title formData) slug_options = inr slug ->
  writeClient_create env (created_document formData slug session pitch) = inr created ->
  handleFormSubmit env pitch prevState formData
  = MkM (inr (success_of created))
        [Auth;
         CmsCreate (created_document formData slug session pitch);
         Toast success_toast;
         RouterPush ("/startup/" +:+ js_toString (get created "_id"))].
Proof.
  intros Hparse Hauth Hslug Hcreate.
  rewrite handleFormSubmit_cases, Hparse, Hauth, Hslug. cbv zeta. rewrite Hcreate.
  reflexivity.
Qed.

Lemma handleFormSubmit_created_witness :
  handleFormSubmit demo_env demo_pitch ∅ demo_form
  = MkM (inr (success_of
                (<["_id" := JStr "doc-1"]>
                   (created_document demo_form "acme" demo_session demo_pitch))))
        [Auth;
         CmsCreate (created_document demo_form "acme" demo_session demo_pitch);
         Toast success_toast;
         RouterPush "/startup/doc-1"].
Proof.
  exact (handleFormSubmit_created demo_env demo_pitch ∅ demo_form
           (JObj (form_values demo_form demo_pitch)) demo_session "acme"
           (<["_id" := JStr "doc-1"]>
              (created_document demo_form "acme" demo_session demo_pitch))
           eq_refl eq_refl eq_refl eq_refl).
Defined.



(** An exception that leaves the action (the slug derivation throwing) is
    absorbed by the handler: nothing is written, and unless the exception
    is a validation error the form gets "An unexpected error has occurred"
    with one destructive toast. *)
Theorem handleFormSubmit_absorbs_action_failure env pitch prevState formData parsed session e :
  formSchema_parseAsync env (form_values formData pitch) = inr parsed ->
  auth env = Some session ->
  slugify env (submitted_title formData) slug_options = inl e ->
  outcome (createPitch env (JObj prevState) formData pitch) = inl e
  /\ handleFormSubmit env pitch prevState formData = caught prevState [Auth] e
  /\ writes (trace (handleFormSubmit env pitch prevState formData)) = []
  /\ exists result,
       outcome (handleFormSubmit env pitch prevState formData) = inr result
       /\ get result "status" = JStr "ERROR".
Proof.
  intros Hparse Hauth Hslug.
  split.
  { rewrite (createPitch_slug_throws env _ formData pitch session Hauth e Hslug).
    reflexivity. }
  rewrite handleFormSubmit_cases, Hparse, Hauth, Hslug.
  split; [reflexivity|]. split; [destruct e; reflexivity|].
  apply caught_answers.
Qed.

Lemma handleFormSubmit_absorbs_action_failure_witness :
  outcome (createPitch (with_slugify refusing_slugify demo_env) (JObj ∅)
             demo_form demo_pitch)
  = inl (Error "slugify: string argument expected")
  /\ handleFormSubmit (with_slugify refusing_slugify demo_env) demo_pitch ∅ demo_form
     = caught ∅ [Auth] (Error "slugify: string argument expected")
  /\ writes (trace (handleFormSubmit (with_slugify refusing_slugify demo_env)
                      demo_pitch ∅ demo_form)) = []
  /\ exists result,
       outcome (handleFormSubmit (with_slugify refusing_slugify demo_env)
                  demo_pitch ∅ demo_form) = inr result
       /\ get result "status" = JStr "ERROR".
Proof.
  apply (handleFormSubmit_absorbs_action_failure
           (with_slugify refusing_slugify demo_env)
           demo_pitch ∅ demo_form (JObj (form_values demo_form demo_pitch)) demo_session);
    reflexivity.
Defined.

(** * Further properties of the view counter *)

(** One request for the counter, whatever the read answers: the read comes
    first, the response is flushed, and the only write there can be is the
    patch of the document that was read, after the flush.  When the read is
    rejected or finds no document nothing is written at all. *)
Theorem View_respond_cases env id :
  respond (View env id)
  = CmsFetch STARTUP_VIEWS_QUERY views_config (views_params id)
    :: match client_fetch env STARTUP_VIEWS_QUERY views_config (views_params id) with
       | inr (Some d) =>
           [ResponseFlushed (inr (view_tree (ViewsDoc.views d)));
            CmsPatch id (views_update (ViewsDoc.views d))]
       | inr None =>
           [ResponseFlushed
              (inl (TypeError "Cannot destructure property 'views' of null"))]
       | inl e => [ResponseFlushed (inl e)]
       end.
Proof.
  destruct (client_fetch env STARTUP_VIEWS_QUERY views_config (views_params id))
    as [e|[d|]] eqn:Hfetch.
  - unfold View; run_M. fold views_config. fold (views_params id).
    rewrite Hfetch. reflexivity.
  - rewrite (View_observed env id d Hfetch). reflexivity.
  - unfold View; run_M. fold views_config. fold (views_params id).
    rewrite Hfetch. reflexivity.
Qed.

Lemma pretty_N_go_head_not_N x s :
  (forall r, s ≠ String "N" r) -> forall r, pretty_N_go x s ≠ String "N" r.
Proof.
  revert s. induction (N.lt_wf_0 x) as [x _ IH]. intros s Hs r.
  destruct (decide (x = 0%N)) as [->|Hx].
  - rewrite pretty_N_go_0. apply Hs.
  - rewrite pretty_N_go_step by lia. apply IH.
    + apply N.div_lt; lia.
    + intros r' Heq. injection Heq as Hc _. revert Hc.
      unfold pretty_N_char. repeat case_match; discriminate.
Qed.

(** The label reads "No views" exactly for the counts below one: zero, a
    negative number, and the [null] of a document that has no count yet. *)
Theorem view_label_no_views (totalViews : option Z) :
  textContent (view_label totalViews) = "No views" <-> to_number totalViews < 1.
Proof.
  unfold view_label, less_than_one.
  destruct (Z.ltb_spec (to_number totalViews) 1) as [Hlt|Hge].
  { split; [intros _; exact Hlt|reflexivity]. }
  split; [|lia]. intros Htext. exfalso.
  destruct totalViews as [[|p|p]|]; cbn in Hge; try lia.
  destruct (decide (p = 1%positive)) as [->|Hp]; [discriminate Htext|].
  assert (is_one (Some (Z.pos p)) = false) as Hone.
  { unfold is_one. apply Z.eqb_neq. lia. }
  rewrite Hone in Htext. cbn in Htext.
  unfold pretty, pretty_Z, pretty, pretty_positive, pretty, pretty_N in Htext.
  cbn [decide] in Htext.
  destruct (decide (N.pos p = 0%N)) as [?|_]; [discriminate|].
  destruct (pretty_N_go (N.pos p) "") as [|c r] eqn:Hgo; [discriminate Htext|].
  cbn in Htext. injection Htext as -> _.
  exact (pretty_N_go_head_not_N (N.pos p) "" ltac:(discriminate) r Hgo).
Qed.

(** * Further properties of the detail page *)

(** Every request issues exactly the two reads, and what the page does is
    decided by their answers alone: a rejected read is thrown on, a missing
    playlist throws a TypeError, a missing entity gives not-found, and only
    an entity together with a playlist renders. *)
Theorem Page_outcome_cases env id :
  trace (Page env id) = page_reads id
  /\ match client_fetch env STARTUP_BY_ID_QUERY ∅ (by_id_params id),
           client_fetch env PLAYLIST_BY_SLUG_QUERY ∅ editor_picks_params with
     | inl e1, inl e2 =>
         outcome (Page env id) = inl e1 \/ outcome (Page env id) = inl e2
     | inl e, inr _ => outcome (Page env id) = inl e
     | inr _, inl e => outcome (Page env id) = inl e
     | inr _, inr None =>
         outcome (Page env id)
         = inl (TypeError "Cannot destructure property 'select' of null")
     | inr None, inr (Some _) => outcome (Page env id) = inl NEXT_NOT_FOUND
     | inr (Some _), inr (Some _) => exists tree, outcome (Page env id) = inr tree
     end.
Proof.
  split; [apply Page_trace|].
  destruct (client_fetch env STARTUP_BY_ID_QUERY ∅ (by_id_params id))
    as [e1|post] eqn:H1.
  { pose proof (proj1 (Page_read_rejected env id) e1 H1) as H.
    destruct (client_fetch env PLAYLIST_BY_SLUG_QUERY ∅ editor_picks_params);
      [left|]; exact H. }
  destruct (client_fetch env PLAYLIST_BY_SLUG_QUERY ∅ editor_picks_params)
    as [e2|[playlist|]] eqn:H2.
  - pose proof (proj2 (Page_read_rejected env id) post e2 H1 H2) as H.
    destruct post; exact H.
  - destruct post as [post|].
    + unfold Page, Promise_all2; run_M.
      fold (by_id_params id). fold editor_picks_params. rewrite H1, H2.
      eexists. reflexivity.
    + rewrite (Page_not_found env id playlist H1 H2). reflexivity.
  - pose proof (Page_without_playlist env id post H1 H2) as H.
    destruct post; exact H.
Qed.

(** The editor picks of a rendered page: no section at all when the
    playlist has no list or an empty one; otherwise the heading and one
    card per pick, in the playlist's order, keyed by position. *)
Theorem Page_editor_picks env id post playlist :
  client_fetch env STARTUP_BY_ID_QUERY ∅ (by_id_params id) = inr (Some post) ->
  client_fetch env PLAYLIST_BY_SLUG_QUERY ∅ editor_picks_params = inr (Some playlist) ->
  exists tree,
    outcome (Page env id) = inr tree
    /\ match Playlist.select playlist with
       | None | Some [] => at_path [1; 3]%nat tree = Some NNothing
       | Some picks =>
           at_path [1; 3; 0]%nat tree
           = Some (NElem "p" [className "text-30-semibold"] [NText "Editor Picks"])
           /\ (children <$> at_path [1; 3; 1]%nat tree)
              = Some (imap pick_card picks)
           /\ forall i, at_path [1; 3; 1; i]%nat tree = pick_card i <$> picks !! i
       end.
Proof.
  intros H1 H2. unfold Page, Promise_all2; run_M.
  fold (by_id_params id). fold editor_picks_params. rewrite H1, H2.
  cbn [outcome trace fst snd mret M_ret ret].
  eexists. split; [reflexivity|].
  destruct (Playlist.select playlist) as [[|pick picks]|]; try reflexivity.
  split; [reflexivity|].
  split; [reflexivity|].
  intros i. rewrite <- (list_lookup_imap pick_card (pick :: picks) i). reflexivity.
Qed.

Lemma Page_editor_picks_witness :
  exists tree,
    outcome (Page (store_with_picks [demo_post None; demo_post (Some "# Shovels")])
               "doc-1") = inr tree
    /\ at_path [1; 3; 0]%nat tree
       = Some (NElem "p" [className "text-30-semibold"] [NText "Editor Picks"])
    /\ (children <$> at_path [1; 3; 1]%nat tree)
       = Some (imap pick_card [demo_post None; demo_post (Some "# Shovels")])
    /\ forall i, at_path [1; 3; 1; i]%nat tree
                 = pick_card i <$> [demo_post None; demo_post (Some "# Shovels")] !! i.
Proof.
  apply (Page_editor_picks
           (store_with_picks [demo_post None; demo_post (Some "# Shovels")]) "doc-1"
           (demo_post None)
           {| Playlist.select := Some [demo_post None; demo_post (Some "# Shovels")] |});
    reflexivity.
Defined.

(** The counter the page mounts is the counter of the entity it shows: the
    page hands the route's id to the counter slot, and the counter run for
    that id patches that document and nothing else. *)
Theorem Page_counter_same_document env id post playlist d :
  client_fetch env STARTUP_BY_ID_QUERY ∅ (by_id_params id) = inr (Some post) ->
  client_fetch env PLAYLIST_BY_SLUG_QUERY ∅ editor_picks_params = inr (Some playlist) ->
  client_fetch env STARTUP_VIEWS_QUERY views_config (views_params id) = inr (Some d) ->
  exists tree,
    outcome (Page env id) = inr tree
    /\ length (children tree) = 3%nat
    /\ at_path [2]%nat tree = Some (counter_slot id)
    /\ writes (trace (Page env id)) = []
    /\ writes (respond (View env id)) = [CmsPatch id (views_update (ViewsDoc.views d))].
Proof.
  intros H1 H2 H3. rewrite Page_trace, (View_observed env id d H3).
  unfold Page, Promise_all2; run_M.
  fold (by_id_params id). fold editor_picks_params. rewrite H1, H2.
  cbn [outcome trace fst snd mret M_ret ret].
  eexists. repeat split; reflexivity.
Qed.

Lemma Page_counter_same_document_witness :
  exists tree,
    outcome (Page (store_with_views None) "doc-1") = inr tree
    /\ length (children tree) = 3%nat
    /\ at_path [2]%nat tree = Some (counter_slot "doc-1")
    /\ writes (trace (Page (store_with_views None) "doc-1")) = []
    /\ writes (respond (View (store_with_views None) "doc-1"))
       = [CmsPatch "doc-1" (views_update None)].
Proof.
  apply (Page_counter_same_document (store_with_views None) "doc-1"
           (demo_post None) no_picks
           {| ViewsDoc._id := "doc-1"; ViewsDoc.views := None |});
    reflexivity.
Defined.

(** * Further properties of the list page, the search form and the card *)

(** The list page reads once and never writes; a rejected read is thrown
    on, and any answered read renders. *)
Theorem Home_reads_once env query :
  trace (Home env query) = [LiveFetch STARTUPS_QUERY (list_params query)]
  /\ writes (trace (Home env query)) = []
  /\ match sanityFetch env STARTUPS_QUERY (list_params query) with
     | inl e => outcome (Home env query) = inl e
     | inr _ => exists tree, outcome (Home env query) = inr tree
     end.
Proof.
  unfold Home; run_M.
  destruct (sanityFetch env STARTUPS_QUERY (list_params query)) as [e|posts];
    repeat split; try reflexivity.
  eexists. reflexivity.
Qed.

(** The three places that show whether the list is filtered agree.  With
    search text the query gets it as filter, the heading names it and the
    search form offers the reset button; with no text (parameter absent or
    empty) the filter is [null], the heading reads "All Startups" and there
    is no reset button.  The form's input is never pre-filled. *)
Theorem Home_search_state env query posts :
  sanityFetch env STARTUPS_QUERY (list_params query) = inr posts ->
  exists tree,
    outcome (Home env query) = inr tree
    /\ at_path [0; 2]%nat tree = Some (NComp "SearchForm" [("query", PStr query)] [])
    /\ at_path [0]%nat (SearchForm query)
       = Some (NElem "input"
                 [("name", PStr (Some "query"));
                  ("defaultValue", PStr (Some ""));
                  ("placeholder", PStr (Some "Search Startup"));
                  className "search-input"] [])
    /\ match query with
       | Some "" | None =>
           get (list_params query) "search" = JNull
           /\ at_path [1; 0]%nat tree = Some (list_heading "All Startups")
           /\ at_path [1; 0]%nat (SearchForm query)
              ≠ Some (NComp "SearchFormReset" [] [])
       | Some text =>
           get (list_params query) "search" = JStr text
           /\ at_path [1; 0]%nat tree
              = Some (list_heading ("Search Results for " +:+ text))
           /\ at_path [1; 0]%nat (SearchForm query)
              = Some (NComp "SearchFormReset" [] [])
       end.
Proof.
  intros Hfetch. unfold Home; run_M. rewrite Hfetch.
  eexists. split; [reflexivity|]. split; [reflexivity|]. split; [reflexivity|].
  destruct query as [[|c text]|]; repeat split; try reflexivity; discriminate.
Qed.

Lemma Home_search_state_witness :
  exists tree,
    outcome (Home demo_env (Some "health")) = inr tree
    /\ at_path [0; 2]%nat tree
       = Some (NComp "SearchForm" [("query", PStr (Some "health"))] [])
    /\ at_path [0]%nat (SearchForm (Some "health"))
       = Some (NElem "input"
                 [("name", PStr (Some "query"));
                  ("defaultValue", PStr (Some ""));
                  ("placeholder", PStr (Some "Search Startup"));
                  className "search-input"] [])
    /\ get (list_params (Some "health")) "search" = JStr "health"
    /\ at_path [1; 0]%nat tree = Some (list_heading "Search Results for health")
    /\ at_path [1; 0]%nat (SearchForm (Some "health"))
       = Some (NComp "SearchFormReset" [] []).
Proof.
  apply (Home_search_state demo_env (Some "health") []). reflexivity.
Defined.

Lemma links_txt (s : option string) : links (txt s) = [].
Proof. destruct s; reflexivity. Qed.

Lemma links_num (n : option Z) : links (num n) = [].
Proof. destruct n; reflexivity. Qed.

(** The links of a card: the author twice, the detail page of the card's
    own post three times, and the search for its category.  A card without
    author links to "/user/undefined", a card without category to a search
    for "undefined". *)
Theorem StartupCard_links env toLowerCase post :
  links (StartupCard env toLowerCase post)
  = let user := "/user/" +:+ match Startup.author post with
                             | Some a => Author._id a
                             | None => "undefined"
                             end in
    let detail := "/startup/" +:+ Startup._id post in
    let search := "/?query=" +:+ match Startup.category post with
                                 | Some c => toLowerCase c
                                 | None => "undefined"
                                 end in
    [user; detail; user; detail; search; detail].
Proof.
  cbv zeta. unfold StartupCard. cbn. rewrite !links_txt, links_num. reflexivity.
Qed.
